(** * mso_schema_template_bd: reconciling a Bridge Domain against a controller

    A shallow embedding of [main] of
    [lib/ansible/modules/network/aci/mso_schema_template_bd.py].

    The module fetches a schema, locates a template and a bridge domain (BD)
    by name, and, according to [state], reports the BD (query), removes it
    (absent) or adds/replaces it (present) with one JSON-patch request.

    [main] is embedded statement by statement in a small monad that threads
    the [MSOModule] object ([existing], [previous], [proposed], [sent]) and
    the list of requests handed to [mso.request], and that stops early on
    [exit_json], [fail_json] or a Python exception. *)

From stdpp Require Import gmap strings list fin_maps.

Set Warnings "-register-all".

(** ** JSON values, as Python holds them *)

Inductive value : Type :=
  | VNone
  | VBool (b : bool)
  | VStr (s : string)
  | VList (l : list value)
  | VDict (d : gmap string value).

Global Instance value_eq_dec : EqDecision value.
Proof.
  refine (fix go (x y : value) {struct x} : Decision (x = y) :=
    let _ : EqDecision value := @go in
    match x, y with
    | VNone, VNone => left _
    | VBool a, VBool b => cast_if (decide (a = b))
    | VStr a, VStr b => cast_if (decide (a = b))
    | VList a, VList b => cast_if (decide (a = b))
    | VDict a, VDict b => cast_if (decide (a = b))
    | _, _ => right _
    end); try abstract congruence.
Defined.

(** Python truth value: [None], [False], [''], [[]] and [{}] are false. *)
Definition dict_is_empty (d : gmap string value) : bool :=
  match map_to_list d with [] => true | _ :: _ => false end.

Definition truthy (v : value) : bool :=
  match v with
  | VNone => false
  | VBool b => b
  | VStr s => match s with EmptyString => false | String _ _ => true end
  | VList l => match l with [] => false | _ :: _ => true end
  | VDict d => negb (dict_is_empty d)
  end.

Definition of_str (o : option string) : value :=
  match o with Some s => VStr s | None => VNone end.

Definition of_bool (o : option bool) : value :=
  match o with Some b => VBool b | None => VNone end.

(** [str.format] of an optional string: [None] prints as [None]. *)
Definition fmt (o : option string) : string :=
  match o with Some s => s | None => "None" end.

(** [l.index(x)]: the lowest index holding [x]; [None] stands for the
    [ValueError] Python raises when [x] is not in [l]. *)
Fixpoint py_index (x : string) (l : list string) : option nat :=
  match l with
  | [] => None
  | y :: l' => if decide (x = y) then Some 0 else S <$> py_index x l'
  end.

(** [x in l] *)
Definition py_in (x : string) (l : list string) : bool := bool_decide (x ∈ l).

(** [', '.join(l)] *)
Definition join (sep : string) (l : list string) : string := String.concat sep l.

(** ** The fetched document *)

(** The records type the document as the controller serves it: a schema
    has [id] and [templates], a template [name] and [bds], a BD [name]. A
    document that lacks one of these keys, on which the subscripts of
    [main] raise [KeyError], is outside the model. *)

(** A BD object is a dict that has a [name]; [bd_rest] holds its other
    entries and [bd_obj] is the dict itself. *)
Record BD := mkBD { bd_name : string; bd_rest : gmap string value }.

Definition bd_obj (b : BD) : gmap string value :=
  <["name" := VStr (bd_name b)]> (bd_rest b).

(** A template: [t['name']], [t['bds']]; [t_vrfs] names the VRFs a
    reference may point to. *)
Record Template := mkTemplate {
  t_name : string;
  t_bds : list BD;
  t_vrfs : list string
}.

(** A schema object: [schema_obj['id']], [schema_obj['templates']], and the
    [displayName] it is looked up by. *)
Record Schema := mkSchema {
  s_id : string;
  s_displayName : string;
  s_templates : list Template
}.

(** ** Module parameters ([module.params]) *)

Inductive State := absent | present | query.

Global Instance State_eq_dec : EqDecision State.
Proof. solve_decision. Defined.

Definition state_name (s : State) : string :=
  match s with absent => "absent" | present => "present" | query => "query" end.

Inductive L2UnknownUnicast := flood | proxy.

Definition l2_name (x : L2UnknownUnicast) : string :=
  match x with flood => "flood" | proxy => "proxy" end.

(** [mso_reference_spec()]: a name and an optional owning schema/template. *)
Record Reference := mkReference {
  ref_name : string;
  ref_schema : option string;
  ref_template : option string
}.

Inductive Scope := private | public.

Definition scope_name (s : Scope) : string :=
  match s with private => "private" | public => "public" end.

(** [mso_subnet_spec()]: the suboptions of [subnets]. *)
Record Subnet := mkSubnet {
  ip : option string;
  description : option string;
  scope : option Scope;
  shared : option bool;
  no_default_gateway : option bool
}.

Record Params := mkParams {
  schema : string;
  template : string;
  bd : option string;
  display_name : option string;
  intersite_bum_traffic : option bool;
  optimize_wan_bandwidth : option bool;
  layer2_stretch : option bool;
  layer2_unknown_unicast : option L2UnknownUnicast;
  layer3_multicast : option bool;
  vrf : option Reference;
  subnets : option (list Subnet);
  state : State
}.

(** ** Patch operations and requests *)

(** [dict(op=..., path=..., value=...)]; [remove] carries no value. *)
Record PatchOp := mkPatchOp {
  op : string;
  path : string;
  value_of : option value
}.

Global Instance PatchOp_eq_dec : EqDecision PatchOp.
Proof. solve_decision. Defined.

(** One call [mso.request(path, method=..., data=...)]. *)
Record Request := mkRequest {
  req_path : string;
  req_method : string;
  req_data : list PatchOp
}.

Global Instance Request_eq_dec : EqDecision Request.
Proof. solve_decision. Defined.

(** ** The collaborators of [main] that reach outside the module

    [MSOModule.get_obj], [make_reference], [make_subnets] and the transport
    behind [request] live in [module_utils/network/aci/mso.py]; [main] is
    embedded over any implementation of them. Each may fail the invocation
    with a message ([Err]). *)

Inductive res (A : Type) : Type :=
  | Ok (a : A)
  | Err (msg : string).
Arguments Ok {A} a.
Arguments Err {A} msg.

Record Env := mkEnv {
  (** [mso.get_obj('schemas', displayName=schema)]: the schema, or the
      empty (false) object when no schema matches. *)
  get_obj : string → res (option Schema);
  (** [mso.make_reference(data, reftype, schema_id, template)] *)
  make_reference : option Reference → string → string → string → res value;
  (** [mso.make_subnets(subnets)] *)
  make_subnets : option (list Subnet) → res value;
  (** the transport: [None] when the request is accepted, the error
      message otherwise. *)
  submit : Request → option string
}.

(** ** The [MSOModule] object *)

Record MSO := mkMSO {
  existing : value;
  previous : value;
  proposed : value;
  sent : value;
  requests : list Request
}.

(** A fresh [MSOModule]: no object yet. [main] tests [not mso.existing]
    before it ever assigns it, and writes the empty object as [{}]. *)
Definition mso_init : MSO :=
  mkMSO (VDict ∅) (VDict ∅) (VDict ∅) (VDict ∅) [].

Definition set_existing (v : value) (m : MSO) : MSO :=
  mkMSO v (previous m) (proposed m) (sent m) (requests m).

Definition set_previous (v : value) (m : MSO) : MSO :=
  mkMSO (existing m) v (proposed m) (sent m) (requests m).

Definition set_proposed (v : value) (m : MSO) : MSO :=
  mkMSO (existing m) (previous m) v (sent m) (requests m).

Definition set_sent (v : value) (m : MSO) : MSO :=
  mkMSO (existing m) (previous m) (proposed m) v (requests m).

Definition log_request (r : Request) (m : MSO) : MSO :=
  mkMSO (existing m) (previous m) (proposed m) (sent m) (requests m ++ [r]).

(** ** The monad of [main] *)

Inductive step (A : Type) : Type :=
  | Next (a : A) (m : MSO)
  | ExitJson (m : MSO)
  | FailJson (msg : string) (m : MSO)
  | Raise (exn : string) (m : MSO).
Arguments Next {A} a m.
Arguments ExitJson {A} m.
Arguments FailJson {A} msg m.
Arguments Raise {A} exn m.

Definition M (A : Type) : Type := MSO → step A.

Global Instance M_ret : MRet M := λ A a m, Next a m.

Global Instance M_bind : MBind M := λ A B f c m,
  match c m with
  | Next a m' => f a m'
  | ExitJson m' => ExitJson m'
  | FailJson msg m' => FailJson msg m'
  | Raise exn m' => Raise exn m'
  end.

Definition get : M MSO := λ m, Next m m.
Definition modify (f : MSO → MSO) : M () := λ m, Next () (f m).
Definition exit_json {A} : M A := λ m, ExitJson m.
Definition fail_json {A} (msg : string) : M A := λ m, FailJson msg m.
Definition raise {A} (exn : string) : M A := λ m, Raise exn m.

Definition lift_res {A} (r : res A) : M A :=
  match r with Ok a => mret a | Err msg => fail_json msg end.

(** [l.index(x)] and [l[i]] with their exceptions. *)
Definition index_of (x : string) (l : list string) : M nat :=
  match py_index x l with Some i => mret i | None => raise "ValueError" end.

Definition getitem {A} (l : list A) (i : nat) : M A :=
  match l !! i with Some a => mret a | None => raise "IndexError" end.

(** ** Pieces of [MSOModule] and [AnsibleModule] that [main] calls *)

(** Modelled from the spec: the argument check of [AnsibleModule]
    (module_utils/basic.py is not among the sources). [main] hands it
    [required_if = [['state','absent',['bd']], ['state','present',['bd','vrf']]]];
    the spec (6, ArgumentSource) has the required-field combinations of a
    state enforced before the core runs. *)
Definition missing_params (p : Params) : list string :=
  match state p with
  | absent => if bd p is Some _ then [] else ["bd"]
  | present => (if bd p is Some _ then [] else ["bd"]) ++
               (if vrf p is Some _ then [] else ["vrf"])
  | query => []
  end.

Definition ansible_module (p : Params) : M () :=
  match missing_params p with
  | [] => mret ()
  | l => fail_json ("state is " +:+ state_name (state p) +:+
                    " but all of the following are missing: " +:+ join ", " l)
  end.

(** Modelled from the spec: [MSOModule.sanitize] (module_utils/network/aci/mso.py
    is not among the sources). Spec 4.2: fields of the desired payload with
    an unset/null value are stripped ([strip_null]); the raw reference
    fields of the existing object, which the call names in [unwanted], are
    excluded ([drop_keys]) and replaced by the resolved form the payload
    carries; spec 9: only the fields the caller set update the object, the
    other fields of the existing object are kept. The result is both what
    is proposed and what is sent. *)
Definition strip_null (d : gmap string value) : gmap string value :=
  filter (λ kv, kv.2 ≠ VNone) d.

Definition drop_keys (ks : list string) (d : gmap string value) : gmap string value :=
  filter (λ kv, kv.1 ∉ ks) d.

Definition sanitized (old updates : gmap string value) (unwanted : list string)
  : gmap string value :=
  strip_null updates ∪ drop_keys unwanted old.

Definition sanitize (updates : gmap string value) (unwanted : list string) : M () :=
  m ← get;
  match existing m with
  | VDict old =>
      let s := VDict (sanitized old updates unwanted) in
      modify (set_proposed s) ;; modify (set_sent s)
  | _ => raise "TypeError"
  end.

(** Modelled from the spec: [MSOModule.request] (mso.py is not among the
    sources). Spec 6: [submit(path, method, patchOps) -> Document|Error];
    the request is handed to the transport, a transport error ends the
    invocation. [main] ignores the document that comes back. *)
Definition request (E : Env) (path method : string) (data : list PatchOp) : M () :=
  let r := mkRequest path method data in
  modify (log_request r) ;;
  match submit E r with
  | None => mret ()
  | Some msg => fail_json msg
  end.

(** Modelled from the spec: the result record of [MSOModule.exit_json]
    (mso.py is not among the sources). Spec 6: [changed], [previous],
    [current]; spec 9: a no-op is found by comparing the proposed value,
    which [main] stores in [existing], with the state before; spec 4.4: a
    query never mutates. *)
Record Result := mkResult {
  changed : bool;
  res_previous : value;
  current : value
}.

Definition report (p : Params) (m : MSO) : Result :=
  mkResult
    (match state p with
     | query => false
     | _ => bool_decide (previous m ≠ existing m)
     end)
    (previous m) (existing m).

(** ** [main] *)

Definition remove_operation (template : string) (bd : option string) : list PatchOp :=
  [mkPatchOp "remove" ("/templates/" +:+ template +:+ "/bds/" +:+ fmt bd) None].

Definition replace_operation (template : string) (bd : option string) (v : value)
  : list PatchOp :=
  [mkPatchOp "replace" ("/templates/" +:+ template +:+ "/bds/" +:+ fmt bd) (Some v)].

Definition add_operation (template : string) (v : value) : list PatchOp :=
  [mkPatchOp "add" ("/templates/" +:+ template +:+ "/bds/-") (Some v)].

(** Lines 260-272: the operation of [state=present]. *)
Definition present_operation (template : string) (bd : option string) (m : MSO)
  : list PatchOp :=
  if truthy (existing m) then replace_operation template bd (sent m)
  else add_operation template (sent m).

(** Lines 243-244. *)
Definition default_display_name (p : Params) (existing : value) : option string :=
  match display_name p with
  | None => if negb (truthy existing) then bd p else None
  | Some d => Some d
  end.

(** Lines 246-256: [payload = dict(name=bd, displayName=display_name, ...)]. *)
Definition payload (p : Params) (display_name : option string)
    (subnets vrf_ref : value) : gmap string value :=
  <["name" := of_str (bd p)]>
  (<["displayName" := of_str display_name]>
  (<["intersiteBumTraffic" := of_bool (intersite_bum_traffic p)]>
  (<["optimizeWanBandwidth" := of_bool (optimize_wan_bandwidth p)]>
  (<["l2UnknownUnicast" := of_str (l2_name <$> layer2_unknown_unicast p)]>
  (<["l2Stretch" := of_bool (layer2_stretch p)]>
  (<["l3MCast" := of_bool (layer3_multicast p)]>
  (<["subnets" := subnets]>
  (<["vrfRef" := vrf_ref]> ∅)))))))).

Definition unwanted : list string := ["bdRef"; "vrfRef"].

(** Lines 199-204: get schema_id. *)
Definition get_schema (E : Env) (p : Params) : M Schema :=
  found ← lift_res (get_obj E (schema p));
  match found with
  | Some s => mret s
  | None => fail_json ("Provided schema '" +:+ schema p +:+ "' does not exist")
  end.

(** Lines 208-212: get template; the result is
    [schema_obj['templates'][template_idx]]. *)
Definition get_template (p : Params) (schema_obj : Schema) : M Template :=
  let templates := t_name <$> s_templates schema_obj in
  (if py_in (template p) templates then mret ()
   else fail_json ("Provided template '" +:+ template p +:+
                   "' does not exist. Existing templates: " +:+ join ", " templates)) ;;
  template_idx ← index_of (template p) templates;
  getitem (s_templates schema_obj) template_idx.

(** Lines 215-219: the existing BD, if there is one of that name. *)
Definition get_existing (p : Params) (tmpl : Template) : M () :=
  let bds := bd_name <$> t_bds tmpl in
  match bd p with
  | Some b =>
      if py_in b bds then
        bd_idx ← index_of b bds;
        o ← getitem (t_bds tmpl) bd_idx;
        modify (set_existing (VDict (bd_obj o)))
      else mret ()
  | None => mret ()
  end.

(** Lines 221-226: [state == 'query']. *)
Definition do_query (p : Params) (tmpl : Template) : M () :=
  match bd p with
  | None => modify (set_existing (VList ((λ b, VDict (bd_obj b)) <$> t_bds tmpl)))
  | Some _ =>
      m ← get;
      if negb (truthy (existing m))
      then fail_json ("BD '" +:+ fmt (bd p) +:+ "' not found")
      else mret ()
  end ;;
  exit_json.

(** Lines 229-237: [state == 'absent']. *)
Definition do_absent (E : Env) (p : Params) (check_mode : bool) (path : string) : M () :=
  m ← get;
  if truthy (existing m) then
    modify (set_sent (VDict ∅)) ;;
    modify (set_existing (VDict ∅)) ;;
    let operation := remove_operation (template p) (bd p) in
    if negb check_mode then request E path "PATCH" operation else mret ()
  else mret ().

(** Lines 239-276: [state == 'present']. *)
Definition do_present (E : Env) (p : Params) (check_mode : bool)
    (schema_id path : string) : M () :=
  vrf_ref ← lift_res (make_reference E (vrf p) "vrf" schema_id (template p));
  subnets ← lift_res (make_subnets E (subnets p));
  m ← get;
  let display_name := default_display_name p (existing m) in
  sanitize (payload p display_name subnets vrf_ref) unwanted ;;
  m ← get;
  let operation := present_operation (template p) (bd p) m in
  modify (set_existing (proposed m)) ;;
  if negb check_mode then request E path "PATCH" operation else mret ().

(** Lines 158-278. [main] never returns: every path ends in [exit_json]
    or [fail_json]. *)
Definition main (E : Env) (p : Params) (check_mode : bool) : M Empty_set :=
  ansible_module p ;;
  schema_obj ← get_schema E p;
  let schema_id := s_id schema_obj in
  let path := "schemas/" +:+ schema_id in
  tmpl ← get_template p schema_obj;
  get_existing p tmpl ;;
  (if decide (state p = query) then do_query p tmpl else mret ()) ;;
  m ← get;
  modify (set_previous (existing m)) ;;
  match state p with
  | absent => do_absent E p check_mode path
  | present => do_present E p check_mode schema_id path
  | query => mret ()
  end ;;
  exit_json.

(** How an invocation ends: [exit_json] with its result record,
    [fail_json] with its message, or an uncaught Python exception; each
    with the requests that were handed to the transport. *)
Inductive Final : Type :=
  | Exited (r : Result) (reqs : list Request)
  | Failed (msg : string) (reqs : list Request)
  | Crashed (exn : string) (reqs : list Request).

Definition run (E : Env) (p : Params) (check_mode : bool) : Final :=
  match main E p check_mode mso_init with
  | Next e _ => match e with end
  | ExitJson m => Exited (report p m) (requests m)
  | FailJson msg m => Failed msg (requests m)
  | Raise exn m => Crashed exn (requests m)
  end.

Definition submitted (f : Final) : list Request :=
  match f with Exited _ l | Failed _ l | Crashed _ l => l end.

(** The first element of [l] whose name is [x]: what
    [l[names.index(x)]] denotes when [x in names]. *)
Definition first_named {A} (name : A → string) (x : string) (l : list A) : option A :=
  List.find (λ a, bool_decide (name a = x)) l.

(** ** A controller to run against

    The document a controller holds, with the collaborators of [main]
    reading it. *)

Definition Controller : Type := list Schema.

(** Modelled from the spec: [MSOModule.get_obj] (mso.py is not among the
    sources). Spec 4.1: the schema is matched by name; no match is not a
    transport failure but the absent object. *)
Definition ctl_get_obj (c : Controller) (name : string) : res (option Schema) :=
  Ok (first_named s_displayName name c).

(** Modelled from the spec: [MSOModule.make_reference] (mso.py is not
    among the sources). Spec 4.2: a reference (name, optional owning
    schema/template, defaulting to the current ones) resolves to a target
    reference string, or fails with ReferenceNotFound when the named target
    is not in the target schema/template. *)
Definition ctl_make_reference (c : Controller) (data : option Reference)
    (reftype schema_id template : string) : res value :=
  match data with
  | None => Ok VNone
  | Some r =>
      let target :=
        match ref_schema r with
        | Some n => first_named s_displayName n c
        | None => first_named s_id schema_id c
        end in
      let tname := default template (ref_template r) in
      match target with
      | None => Err ("ReferenceNotFound: schema of " +:+ reftype +:+ " '" +:+ ref_name r +:+ "'")
      | Some s =>
          match first_named t_name tname (s_templates s) with
          | None => Err ("ReferenceNotFound: template '" +:+ tname +:+ "'")
          | Some t =>
              if py_in (ref_name r) (t_vrfs t)
              then Ok (VStr ("/schemas/" +:+ s_id s +:+ "/templates/" +:+ tname +:+
                             "/" +:+ reftype +:+ "s/" +:+ ref_name r))
              else Err ("ReferenceNotFound: " +:+ reftype +:+ " '" +:+ ref_name r +:+ "'")
          end
      end
  end.

(** Modelled from the spec: [MSOModule.make_subnets] (mso.py is not among
    the sources). Spec 4.2: each subnet entry is normalized on its own by
    the null-stripping rule; the CIDR field is mandatory, InvalidSubnet
    otherwise. *)
Definition subnet_dict (s : Subnet) : gmap string value :=
  strip_null
    (<["ip" := of_str (ip s)]>
    (<["description" := of_str (description s)]>
    (<["scope" := of_str (scope_name <$> scope s)]>
    (<["shared" := of_bool (shared s)]>
    (<["noDefaultGateway" := of_bool (no_default_gateway s)]> ∅))))).

Fixpoint subnet_dicts (l : list Subnet) : res (list value) :=
  match l with
  | [] => Ok []
  | s :: l' =>
      match ip s with
      | None => Err "InvalidSubnet: the ip of a subnet is missing"
      | Some _ =>
          match subnet_dicts l' with
          | Ok vs => Ok (VDict (subnet_dict s) :: vs)
          | Err msg => Err msg
          end
      end
  end.

Definition ctl_make_subnets (data : option (list Subnet)) : res value :=
  match data with
  | None => Ok VNone
  | Some l =>
      match subnet_dicts l with
      | Ok vs => Ok (VList vs)
      | Err msg => Err msg
      end
  end.

(** Modelled from the spec: what the controller does with a patch (the
    remote is not among the sources). Spec 3: objects are created by [add],
    updated in place by [replace] (the whole value) and destroyed by
    [remove]; spec 4.3: [remove] and [replace] address the object by name
    under [/templates/{templateName}/bds/], [add] with the trailing dash
    appends; spec 8: a query after an [add] returns the value submitted. The
    first template, and in it the first BD, whose path is the path of the
    operation is the one addressed. *)
Definition bd_path (tname bname : string) : string :=
  "/templates/" +:+ tname +:+ "/bds/" +:+ bname.

Definition as_bd (v : value) : option BD :=
  match v with
  | VDict d =>
      match d !! "name" with
      | Some (VStr n) => Some (mkBD n (delete "name" d))
      | _ => None
      end
  | _ => None
  end.

Fixpoint replace_named (tname path : string) (new : BD) (l : list BD) : option (list BD) :=
  match l with
  | [] => None
  | o :: l' =>
      if decide (bd_path tname (bd_name o) = path) then Some (new :: l')
      else cons o <$> replace_named tname path new l'
  end.

Fixpoint remove_named (tname path : string) (l : list BD) : option (list BD) :=
  match l with
  | [] => None
  | o :: l' =>
      if decide (bd_path tname (bd_name o) = path) then Some l'
      else cons o <$> remove_named tname path l'
  end.

(** The template after the operation, when the operation addresses it. *)
Definition apply_op_template (o : PatchOp) (t : Template) : option Template :=
  if decide (op o = "add") then
    new ← value_of o ≫= as_bd;
    if decide (path o = bd_path (t_name t) "-")
    then Some (mkTemplate (t_name t) (t_bds t ++ [new]) (t_vrfs t))
    else None
  else if decide (op o = "replace") then
    new ← value_of o ≫= as_bd;
    bds ← replace_named (t_name t) (path o) new (t_bds t);
    Some (mkTemplate (t_name t) bds (t_vrfs t))
  else if decide (op o = "remove") then
    bds ← remove_named (t_name t) (path o) (t_bds t);
    Some (mkTemplate (t_name t) bds (t_vrfs t))
  else None.

Fixpoint apply_op (o : PatchOp) (l : list Template) : list Template :=
  match l with
  | [] => []
  | t :: l' =>
      match apply_op_template o t with
      | Some t' => t' :: l'
      | None => t :: apply_op o l'
      end
  end.

Definition apply_ops (ops : list PatchOp) (l : list Template) : list Template :=
  foldl (λ l o, apply_op o l) l ops.

Definition apply_to_schema (r : Request) (s : Schema) : Schema :=
  if decide (req_method r = "PATCH" ∧ req_path r = "schemas/" +:+ s_id s)
  then mkSchema (s_id s) (s_displayName s) (apply_ops (req_data r) (s_templates s))
  else s.

Definition apply_request (r : Request) (c : Controller) : Controller :=
  apply_to_schema r <$> c.

Definition apply_requests (rs : list Request) (c : Controller) : Controller :=
  foldl (λ c r, apply_request r c) c rs.

(** A name that can stand between the separators of a path: it holds no
    [/] (character 47). *)
Definition slash : Ascii.ascii := Ascii.ascii_of_nat 47.

Fixpoint no_slash (s : string) : bool :=
  match s with
  | EmptyString => true
  | String c r => negb (Ascii.eqb c slash) && no_slash r
  end.

(** Template names that can be told apart in a path. *)
Definition plain_names (l : list Template) : Prop :=
  Forall (λ t, no_slash (t_name t) = true) l.

(** What a patch of BDs leaves alone in a template. *)
Definition same_shape (a b : Template) : Prop :=
  t_name a = t_name b ∧ t_vrfs a = t_vrfs b.

(** The environment of an invocation against controller [c] over a
    transport that accepts every request. *)
Definition ctl_env (c : Controller) : Env :=
  mkEnv (ctl_get_obj c) (ctl_make_reference c) ctl_make_subnets (λ _, None).

(** The same over a transport that rejects every request. *)
Definition ctl_env_down (c : Controller) : Env :=
  mkEnv (ctl_get_obj c) (ctl_make_reference c) ctl_make_subnets
        (λ _, Some "TransportError").

(** *** Sample data *)

Definition vrf1_ref : value := VStr "/schemas/s1/templates/Template 1/vrfs/VRF1".

Definition bd1 : BD := mkBD "BD1" (<["displayName" := VStr "BD1"]> (<["vrfRef" := vrf1_ref]> ∅)).

Definition ctl_empty : Controller :=
  [mkSchema "s1" "Schema 1" [mkTemplate "Template 1" [] ["VRF1"]]].

Definition ctl_bd1 : Controller :=
  [mkSchema "s1" "Schema 1" [mkTemplate "Template 1" [bd1] ["VRF1"]]].

(** A second BD of the same name, further down the list. *)
Definition bd1_again : BD := mkBD "BD1" (<["displayName" := VStr "other"]> ∅).
Definition tmpl_dup : Template := mkTemplate "Template 1" [bd1; bd1_again] ["VRF1"].
Definition schema_dup : Schema := mkSchema "s1" "Schema 1" [tmpl_dup].
Definition ctl_dup : Controller := [schema_dup].

Definition tmpl_empty : Template := mkTemplate "Template 1" [] ["VRF1"].
Definition tmpl_bd1 : Template := mkTemplate "Template 1" [bd1] ["VRF1"].
Definition schema_empty : Schema := mkSchema "s1" "Schema 1" [tmpl_empty].
Definition schema_bd1 : Schema := mkSchema "s1" "Schema 1" [tmpl_bd1].

(** Two templates of the same name. *)
Definition schema_two : Schema := mkSchema "s1" "Schema 1" [tmpl_bd1; tmpl_empty].
Definition ctl_two : Controller := [schema_two].

Definition params_at (sch tpl : string) (n : option string) (v : option Reference)
    (st : State) : Params :=
  mkParams sch tpl n None None None None None None v None st.

Definition params (n : option string) (v : option Reference) (st : State) : Params :=
  params_at "Schema 1" "Template 1" n v st.

Definition vrf1 : Reference := mkReference "VRF1" None None.
Definition vrf2 : Reference := mkReference "VRF2" None None.

Definition present_bd1 : Params := params (Some "BD1") (Some vrf1) present.
Definition present_vrf2 : Params := params (Some "BD1") (Some vrf2) present.
Definition present_bad_subnet : Params :=
  mkParams "Schema 1" "Template 1" (Some "BD1") None None None None None None
    (Some vrf1) (Some [mkSubnet None None None None None]) present.
Definition absent_bd1 : Params := params (Some "BD1") None absent.
Definition query_bd1 : Params := params (Some "BD1") None query.
Definition query_all : Params := params None None query.
Definition absent_unnamed : Params := params None None absent.

Definition replace_bd1 : Request :=
  mkRequest "schemas/s1" "PATCH"
    [mkPatchOp "replace" "/templates/Template 1/bds/BD1" (Some (VDict (bd_obj bd1)))].

Definition add_bd1 : Request :=
  mkRequest "schemas/s1" "PATCH"
    [mkPatchOp "add" "/templates/Template 1/bds/-" (Some (VDict (bd_obj bd1)))].

(** BD1 asked for with another display name. *)
Definition present_renamed : Params :=
  mkParams "Schema 1" "Template 1" (Some "BD1") (Some "Bridge 1") None None None None
    None (Some vrf1) None present.

Definition bd1_renamed : BD :=
  mkBD "BD1" (<["displayName" := VStr "Bridge 1"]> (<["vrfRef" := vrf1_ref]> ∅)).

Definition replace_bd1_renamed : Request :=
  mkRequest "schemas/s1" "PATCH"
    [mkPatchOp "replace" "/templates/Template 1/bds/BD1"
       (Some (VDict (bd_obj bd1_renamed)))].

(** Two templates whose BDs share a path: [a/bds/b] with BD [c], and [a]
    with BD [b/bds/c]. *)
Definition ctl_slashed : Controller :=
  [mkSchema "s1" "Schema 1"
     [mkTemplate "a/bds/b" [mkBD "c" ∅] ["VRF1"];
      mkTemplate "a" [mkBD "b/bds/c" ∅] ["VRF1"]]].

Definition present_slashed : Params :=
  params_at "Schema 1" "a" (Some "b/bds/c") (Some vrf1) present.

Definition remove_bd1 : Request :=
  mkRequest "schemas/s1" "PATCH"
    [mkPatchOp "remove" "/templates/Template 1/bds/BD1" None].

(** The BD that lines 215-219 select: the first of that name. *)
Definition lookup_bd (p : Params) (t : Template) : option BD :=
  match bd p with
  | Some b => first_named bd_name b (t_bds t)
  | None => None
  end.

(** [mso.existing] after line 219. *)
Definition found_dict (p : Params) (t : Template) : gmap string value :=
  match lookup_bd p t with
  | Some o => bd_obj o
  | None => ∅
  end.

Definition found_existing (p : Params) (t : Template) : value :=
  VDict (found_dict p t).

(** [mso.proposed] and [mso.sent] after line 258. *)
Definition proposed_bd (p : Params) (t : Template) (subnets vrf_ref : value)
  : gmap string value :=
  sanitized (found_dict p t)
    (payload p (default_display_name p (found_existing p t))
       subnets vrf_ref)
    unwanted.

(** The request of [state=absent]. *)
Definition remove_request (p : Params) (s : Schema) : Request :=
  mkRequest ("schemas/" +:+ s_id s) "PATCH" (remove_operation (template p) (bd p)).

(** The request of [state=present]. *)
Definition present_request (p : Params) (s : Schema) (t : Template)
    (subnets vrf_ref : value) : Request :=
  let v := VDict (proposed_bd p t subnets vrf_ref) in
  mkRequest ("schemas/" +:+ s_id s) "PATCH"
    (match lookup_bd p t with
     | Some _ => replace_operation (template p) (bd p) v
     | None => add_operation (template p) v
     end).

(** An invocation that reaches the transport with request [r] and would
    report [res]. *)
Definition submit_and_report (E : Env) (check_mode : bool) (r : Request) (res : Result)
  : Final :=
  if check_mode then Exited res []
  else match submit E r with
       | None => Exited res [r]
       | Some msg => Failed msg [r]
       end.

(** The one operation an invocation for BD [b] may hand to the transport:
    the [remove] of lines 232-235, or the [replace] or [add] of lines
    261-272. *)
Definition patch_op_for (p : Params) (b : string) (o : PatchOp) : Prop :=
  (state p = absent ∧ o = mkPatchOp "remove" (bd_path (template p) b) None)
  ∨ (state p = present ∧
     ∃ v, o = mkPatchOp "replace" (bd_path (template p) b) (Some v)
          ∨ o = mkPatchOp "add" (bd_path (template p) "-") (Some v)).

(** * Properties *)

(** ** Lists looked up by name *)

Section by_name.
Context {A : Type} (name : A → string).

Lemma py_in_spec (x : string) (l : list string) : py_in x l = true ↔ x ∈ l.
Proof. unfold py_in. apply bool_decide_eq_true. Qed.

Lemma py_in_false (x : string) (l : list string) : py_in x l = false ↔ x ∉ l.
Proof. unfold py_in. apply bool_decide_eq_false. Qed.

Lemma first_named_cons (x : string) (a : A) (l : list A) :
  first_named name x (a :: l) =
  if decide (name a = x) then Some a else first_named name x l.
Proof. unfold first_named. simpl. by case_bool_decide; case_decide. Qed.

Lemma first_named_None (x : string) (l : list A) :
  first_named name x l = None ↔ x ∉ name <$> l.
Proof.
  induction l as [|a l IH]; [split; [intros _; rewrite fmap_nil; apply not_elem_of_nil | done]|].
  rewrite first_named_cons, fmap_cons, not_elem_of_cons.
  destruct (decide (name a = x)) as [e|n].
  - split; [done | intros [Hx _]; congruence].
  - rewrite IH. split; [intros Hl; split; [congruence | done] | by intros [_ Hl]].
Qed.

Lemma first_named_Some_name (x : string) (l : list A) (a : A) :
  first_named name x l = Some a → name a = x.
Proof.
  induction l as [|b l IH]; [done|].
  rewrite first_named_cons. destruct (decide (name b = x)); naive_solver.
Qed.

Lemma first_named_elem (x : string) (l : list A) (a : A) :
  first_named name x l = Some a → x ∈ name <$> l.
Proof.
  intros H. destruct (decide (x ∈ name <$> l)) as [|n]; [done|].
  apply first_named_None in n. congruence.
Qed.

(** [l[names.index(x)]] is the first element named [x]. *)
Lemma index_first_named (x : string) (l : list A) (a : A) :
  first_named name x l = Some a →
  ∃ i, py_index x (name <$> l) = Some i ∧ l !! i = Some a.
Proof.
  induction l as [|b l IH]; [done|].
  rewrite first_named_cons, fmap_cons. simpl.
  destruct (decide (name b = x)) as [e|n].
  - intros [= ->]. exists 0. by rewrite decide_True.
  - intros H. destruct (IH H) as (i & Hi & Ha).
    exists (S i). rewrite decide_False by congruence. by rewrite Hi.
Qed.

(** The first element named [x] in a list cut at it. *)
Lemma first_named_app (x : string) (l1 l2 : list A) (a : A) :
  x ∉ name <$> l1 → name a = x →
  first_named name x (l1 ++ a :: l2) = Some a.
Proof.
  intros Hl Ha. induction l1 as [|b l1 IH]; cbn [app].
  - by rewrite first_named_cons, decide_True.
  - rewrite fmap_cons, not_elem_of_cons in Hl. destruct Hl as [Hb Hl].
    rewrite first_named_cons, decide_False by done. by apply IH.
Qed.
End by_name.

(** ** The steps of [main] *)

Ltac run_monad :=
  unfold mbind, M_bind, mret, M_ret, modify, get, fail_json, exit_json, raise,
    lift_res; simpl.

Ltac mso_simpl :=
  cbn [existing previous proposed sent requests set_existing set_previous
       set_proposed set_sent log_request mso_init app].

Lemma ansible_module_ok (p : Params) (m : MSO) :
  missing_params p = [] → ansible_module p m = Next () m.
Proof. unfold ansible_module. by intros ->. Qed.

Lemma get_schema_found (E : Env) (p : Params) (s : Schema) (m : MSO) :
  get_obj E (schema p) = Ok (Some s) → get_schema E p m = Next s m.
Proof. unfold get_schema. run_monad. by intros ->. Qed.

Lemma get_schema_missing (E : Env) (p : Params) (m : MSO) :
  get_obj E (schema p) = Ok None →
  get_schema E p m =
  FailJson ("Provided schema '" +:+ schema p +:+ "' does not exist") m.
Proof. unfold get_schema. run_monad. by intros ->. Qed.

Lemma get_template_found (p : Params) (s : Schema) (t : Template) (m : MSO) :
  first_named t_name (template p) (s_templates s) = Some t →
  get_template p s m = Next t m.
Proof.
  intros H. unfold get_template, index_of, getitem. run_monad.
  pose proof (first_named_elem _ _ _ _ H) as Hin.
  apply py_in_spec in Hin. rewrite Hin.
  destruct (index_first_named _ _ _ _ H) as (i & -> & ->). done.
Qed.

Lemma get_template_missing (p : Params) (s : Schema) (m : MSO) :
  template p ∉ t_name <$> s_templates s →
  get_template p s m =
  FailJson ("Provided template '" +:+ template p +:+
            "' does not exist. Existing templates: " +:+
            join ", " (t_name <$> s_templates s)) m.
Proof.
  intros H. unfold get_template. run_monad.
  apply py_in_false in H. by rewrite H.
Qed.

Lemma get_existing_spec (p : Params) (t : Template) :
  get_existing p t mso_init = Next () (set_existing (found_existing p t) mso_init).
Proof.
  unfold get_existing, found_existing, found_dict, lookup_bd, index_of, getitem.
  run_monad.
  destruct (bd p) as [b|]; [|done].
  destruct (first_named bd_name b (t_bds t)) as [o|] eqn:H.
  - pose proof (first_named_elem _ _ _ _ H) as Hin.
    apply py_in_spec in Hin. rewrite Hin.
    destruct (index_first_named _ _ _ _ H) as (i & -> & ->). done.
  - apply first_named_None, py_in_false in H. by rewrite H.
Qed.

Lemma VDict_inj (a b : gmap string value) : VDict a = VDict b → a = b.
Proof. by intros [= ->]. Qed.

Lemma dict_is_empty_spec (d : gmap string value) : dict_is_empty d = true ↔ d = ∅.
Proof.
  unfold dict_is_empty. rewrite <- map_to_list_empty_iff.
  by destruct (map_to_list d).
Qed.

Lemma truthy_bd_obj (b : BD) : truthy (VDict (bd_obj b)) = true.
Proof.
  simpl. apply negb_true_iff, not_true_iff_false.
  rewrite dict_is_empty_spec. apply insert_non_empty.
Qed.

Lemma truthy_empty : truthy (VDict ∅) = false.
Proof. done. Qed.

Lemma truthy_found_existing (p : Params) (t : Template) :
  truthy (found_existing p t) = bool_decide (is_Some (lookup_bd p t)).
Proof.
  unfold found_existing, found_dict. destruct (lookup_bd p t) as [o|].
  - rewrite truthy_bd_obj. symmetry. by apply bool_decide_eq_true.
  - symmetry. apply bool_decide_eq_false. by intros [? ?].
Qed.

(** The invocation up to line 219, when schema and template resolve. *)
Lemma main_located (E : Env) (p : Params) (check_mode : bool) (s : Schema) (t : Template) :
  missing_params p = [] →
  get_obj E (schema p) = Ok (Some s) →
  first_named t_name (template p) (s_templates s) = Some t →
  main E p check_mode mso_init =
  ((if decide (state p = query) then do_query p t else mret ()) ;;
   m ← get;
   modify (set_previous (existing m)) ;;
   match state p with
   | absent => do_absent E p check_mode ("schemas/" +:+ s_id s)
   | present => do_present E p check_mode (s_id s) ("schemas/" +:+ s_id s)
   | query => mret ()
   end ;;
   exit_json) (set_existing (found_existing p t) mso_init).
Proof.
  intros Hv Hs Ht. unfold main.
  unfold mbind at 1, M_bind at 1. rewrite ansible_module_ok by done.
  unfold mbind at 1, M_bind at 1. rewrite (get_schema_found _ _ s) by done.
  unfold mbind at 1, M_bind at 1. rewrite (get_template_found _ _ t) by done.
  unfold mbind at 1, M_bind at 1. rewrite get_existing_spec. done.
Qed.

(** ** Schema and template resolution *)

Lemma schema_not_found_aux (E : Env) (p : Params) (check_mode : bool) :
  missing_params p = [] →
  get_obj E (schema p) = Ok None →
  run E p check_mode =
  Failed ("Provided schema '" +:+ schema p +:+ "' does not exist") [].
Proof.
  intros Hv Hs. unfold run, main.
  unfold mbind at 1, M_bind at 1. rewrite ansible_module_ok by done.
  unfold mbind at 1, M_bind at 1. by rewrite get_schema_missing.
Qed.

Lemma template_not_found_aux (E : Env) (p : Params) (check_mode : bool) :
  missing_params p = [] →
  ∀ s, get_obj E (schema p) = Ok (Some s) →
       template p ∉ t_name <$> s_templates s →
       run E p check_mode =
       Failed ("Provided template '" +:+ template p +:+
               "' does not exist. Existing templates: " +:+
               join ", " (t_name <$> s_templates s)) [].
Proof.
  intros Hv s Hs Ht. unfold run, main.
  unfold mbind at 1, M_bind at 1. rewrite ansible_module_ok by done.
  unfold mbind at 1, M_bind at 1. rewrite (get_schema_found _ _ s) by done.
  unfold mbind at 1, M_bind at 1. by rewrite get_template_missing.
Qed.

(** C6: when no schema matches the given name the invocation fails with a
    message naming that schema; when the schema exists but the template name
    is not among its templates, it fails with a message listing the template
    names of the schema. Nothing is submitted in either case. *)
Theorem schema_or_template_not_found (E : Env) (p : Params) (check_mode : bool) :
  missing_params p = [] →
  (get_obj E (schema p) = Ok None →
   run E p check_mode =
   Failed ("Provided schema '" +:+ schema p +:+ "' does not exist") [])
  ∧ (∀ s, get_obj E (schema p) = Ok (Some s) →
          template p ∉ t_name <$> s_templates s →
          run E p check_mode =
          Failed ("Provided template '" +:+ template p +:+
                  "' does not exist. Existing templates: " +:+
                  join ", " (t_name <$> s_templates s)) []).
Proof.
  intros Hv. split.
  - by apply schema_not_found_aux.
  - by apply template_not_found_aux.
Qed.

(** ** What an invocation does once schema and template are resolved *)

Section located.
Context (E : Env) (p : Params) (check_mode : bool) (s : Schema) (t : Template).
Hypothesis Hvalid : missing_params p = [].
Hypothesis Hschema : get_obj E (schema p) = Ok (Some s).
Hypothesis Htemplate : first_named t_name (template p) (s_templates s) = Some t.

Lemma run_query :
  state p = query →
  run E p check_mode =
  match bd p with
  | None =>
      Exited (mkResult false (VDict ∅) (VList ((λ b, VDict (bd_obj b)) <$> t_bds t))) []
  | Some b =>
      match first_named bd_name b (t_bds t) with
      | Some o => Exited (mkResult false (VDict ∅) (VDict (bd_obj o))) []
      | None => Failed ("BD '" +:+ b +:+ "' not found") []
      end
  end.
Proof.
  intros Hq. unfold run. rewrite (main_located E p check_mode s t) by done.
  rewrite decide_True by done. unfold do_query, report.
  unfold found_existing, found_dict, lookup_bd.
  destruct (bd p) as [b|]; run_monad; [|by rewrite Hq].
  destruct (first_named bd_name b (t_bds t)) as [o|]; [|done].
  pose proof (truthy_bd_obj o) as Ho. simpl in Ho. rewrite Ho. simpl.
  by rewrite Hq.
Qed.

Lemma changed_removed (o : BD) : bool_decide (VDict (bd_obj o) ≠ VDict ∅) = true.
Proof.
  apply bool_decide_eq_true. intros [= H]. by apply (insert_non_empty (bd_rest o) "name" (VStr (bd_name o))).
Qed.

Lemma run_absent :
  state p = absent →
  run E p check_mode =
  match lookup_bd p t with
  | None => Exited (mkResult false (VDict ∅) (VDict ∅)) []
  | Some o =>
      submit_and_report E check_mode (remove_request p s)
        (mkResult true (VDict (bd_obj o)) (VDict ∅))
  end.
Proof.
  intros Ha. unfold run. rewrite (main_located E p check_mode s t) by done.
  rewrite decide_False by (rewrite Ha; done). rewrite Ha.
  unfold do_absent, report, submit_and_report, request, remove_request.
  unfold found_existing, found_dict.
  destruct (lookup_bd p t) as [o|]; run_monad; [|by rewrite Ha].
  pose proof (truthy_bd_obj o) as Ho. simpl in Ho. rewrite Ho. simpl.
  destruct check_mode; simpl.
  - by rewrite Ha, changed_removed.
  - destruct (submit E _); [done|]. mso_simpl. by rewrite Ha, changed_removed.
Qed.

Lemma run_present (sn vrf_ref : value) :
  state p = present →
  make_reference E (vrf p) "vrf" (s_id s) (template p) = Ok vrf_ref →
  make_subnets E (subnets p) = Ok sn →
  run E p check_mode =
  submit_and_report E check_mode (present_request p s t sn vrf_ref)
    (mkResult
       (bool_decide (found_existing p t ≠ VDict (proposed_bd p t sn vrf_ref)))
       (found_existing p t)
       (VDict (proposed_bd p t sn vrf_ref))).
Proof.
  intros Hp Hr Hs. unfold run. rewrite (main_located E p check_mode s t) by done.
  rewrite decide_False by (rewrite Hp; done). rewrite Hp.
  unfold do_present, sanitize, report, submit_and_report, request, present_request.
  run_monad. rewrite Hr, Hs. simpl.
  unfold present_operation. mso_simpl.
  change (VDict (found_dict p t)) with (found_existing p t).
  fold (proposed_bd p t sn vrf_ref).
  rewrite Hp. unfold found_existing at 1 2. cbn [truthy].
  assert (Hop :
    (if negb (dict_is_empty (found_dict p t))
     then replace_operation (template p) (bd p) (VDict (proposed_bd p t sn vrf_ref))
     else add_operation (template p) (VDict (proposed_bd p t sn vrf_ref)))
    = match lookup_bd p t with
      | Some _ => replace_operation (template p) (bd p) (VDict (proposed_bd p t sn vrf_ref))
      | None => add_operation (template p) (VDict (proposed_bd p t sn vrf_ref))
      end).
  { unfold found_dict. destruct (lookup_bd p t) as [o|]; [|done].
    pose proof (truthy_bd_obj o) as Ho. simpl in Ho. by rewrite Ho. }
  destruct check_mode; simpl; [done|].
  rewrite Hop. by destruct (submit E _).
Qed.
End located.

(** Failures of [state=present] before anything is built. *)
Section present_failures.
Context (E : Env) (p : Params) (check_mode : bool) (s : Schema) (t : Template).
Hypothesis Hvalid : missing_params p = [].
Hypothesis Hschema : get_obj E (schema p) = Ok (Some s).
Hypothesis Htemplate : first_named t_name (template p) (s_templates s) = Some t.
Hypothesis Hpresent : state p = present.

Lemma run_present_unresolved (msg : string) :
  make_reference E (vrf p) "vrf" (s_id s) (template p) = Err msg →
  run E p check_mode = Failed msg [].
Proof.
  intros Hr. unfold run. rewrite (main_located E p check_mode s t) by done.
  rewrite decide_False by (rewrite Hpresent; done). rewrite Hpresent.
  unfold do_present. run_monad. by rewrite Hr.
Qed.

Lemma run_present_bad_subnets (vrf_ref : value) (msg : string) :
  make_reference E (vrf p) "vrf" (s_id s) (template p) = Ok vrf_ref →
  make_subnets E (subnets p) = Err msg →
  run E p check_mode = Failed msg [].
Proof.
  intros Hr Hs. unfold run. rewrite (main_located E p check_mode s t) by done.
  rewrite decide_False by (rewrite Hpresent; done). rewrite Hpresent.
  unfold do_present. run_monad. by rewrite Hr, Hs.
Qed.
End present_failures.

(** An invocation that does not get as far as a template fails, with a
    message that does not depend on check mode, before any request. *)
Lemma run_not_located (E : Env) (p : Params) :
  (∃ s t, missing_params p = [] ∧ get_obj E (schema p) = Ok (Some s) ∧
          first_named t_name (template p) (s_templates s) = Some t)
  ∨ (∃ msg, ∀ check_mode, run E p check_mode = Failed msg []).
Proof.
  destruct (missing_params p) as [|x l] eqn:Hv.
  2:{ right. eexists. intros c. unfold run, main, ansible_module.
      unfold mbind at 1, M_bind at 1. rewrite Hv. reflexivity. }
  destruct (get_obj E (schema p)) as [[s|]|msg] eqn:Hs.
  - destruct (first_named t_name (template p) (s_templates s)) as [t|] eqn:Ht.
    + left. by exists s, t.
    + right. eexists. intros c.
      apply (template_not_found_aux E p c Hv s Hs).
      by apply first_named_None.
  - right. eexists. intros c. unfold run, main.
    unfold mbind at 1, M_bind at 1. rewrite ansible_module_ok by done.
    unfold mbind at 1, M_bind at 1. by rewrite get_schema_missing.
  - right. exists msg. intros c. unfold run, main.
    unfold mbind at 1, M_bind at 1. rewrite ansible_module_ok by done.
    unfold get_schema. run_monad. by rewrite Hs.
Qed.

(** ** Query *)

Lemma run_query_submits_nothing (E : Env) (p : Params) (check_mode : bool) :
  state p = query → submitted (run E p check_mode) = [].
Proof.
  intros Hq. destruct (run_not_located E p) as [(s & t & Hv & Hs & Ht)|[msg H]].
  - rewrite (run_query E p check_mode s t) by done.
    destruct (bd p) as [b|]; [|done].
    by destruct (first_named bd_name b (t_bds t)).
  - by rewrite H.
Qed.

(** C5: with [state=query] nothing is ever submitted; once schema and
    template are resolved, a query that names a BD fails with "BD ... not
    found" when the template has no BD of that name and otherwise returns
    that BD, and a query without a name returns the list of all BDs of the
    template. *)
Theorem query_reports_without_submitting (E : Env) (p : Params) (check_mode : bool) :
  state p = query →
  submitted (run E p check_mode) = []
  ∧ (∀ s t,
       get_obj E (schema p) = Ok (Some s) →
       first_named t_name (template p) (s_templates s) = Some t →
       (∀ b, bd p = Some b → b ∉ bd_name <$> t_bds t →
             run E p check_mode = Failed ("BD '" +:+ b +:+ "' not found") [])
       ∧ (∀ b o, bd p = Some b → first_named bd_name b (t_bds t) = Some o →
                 run E p check_mode =
                 Exited (mkResult false (VDict ∅) (VDict (bd_obj o))) [])
       ∧ (bd p = None →
          run E p check_mode =
          Exited (mkResult false (VDict ∅)
                    (VList ((λ b, VDict (bd_obj b)) <$> t_bds t))) [])).
Proof.
  intros Hq. split; [by apply run_query_submits_nothing|].
  intros s t Hs Ht.
  assert (Hv : missing_params p = []) by (unfold missing_params; by rewrite Hq).
  rewrite (run_query E p check_mode s t) by done.
  repeat split.
  - intros b -> Hb. apply first_named_None in Hb. by rewrite Hb.
  - by intros b o -> ->.
  - by intros ->.
Qed.

(** ** Absent *)

(** C4: with [state=absent], when the template has no BD of the given name
    the invocation exits with [changed=false] and submits nothing; when it
    has one, a single [remove] operation at
    [/templates/{template}/bds/{bd}] is built, submitted unless in check
    mode, and the invocation reports [changed=true] with the empty object
    as current state (it fails with the transport's message if the
    transport rejects the request). *)
Theorem absent_removes_or_is_noop (E : Env) (p : Params) (check_mode : bool)
    (s : Schema) (t : Template) (b : string) :
  state p = absent →
  bd p = Some b →
  get_obj E (schema p) = Ok (Some s) →
  first_named t_name (template p) (s_templates s) = Some t →
  (b ∉ bd_name <$> t_bds t →
   run E p check_mode = Exited (mkResult false (VDict ∅) (VDict ∅)) [])
  ∧ (∀ o, first_named bd_name b (t_bds t) = Some o →
          run E p check_mode =
          submit_and_report E check_mode
            (mkRequest ("schemas/" +:+ s_id s) "PATCH"
               [mkPatchOp "remove"
                  ("/templates/" +:+ template p +:+ "/bds/" +:+ b) None])
            (mkResult true (VDict (bd_obj o)) (VDict ∅))).
Proof.
  intros Ha Hb Hs Ht.
  assert (Hv : missing_params p = []) by (unfold missing_params; by rewrite Ha, Hb).
  rewrite (run_absent E p check_mode s t) by done.
  unfold lookup_bd, remove_request, remove_operation. rewrite Hb. split.
  - intros Hn. apply first_named_None in Hn. by rewrite Hn.
  - by intros o ->.
Qed.

(** ** Present *)

(** C2: with [state=present] exactly one patch operation is built: a
    [replace] at [/templates/{template}/bds/{bd}] when the BD exists, an
    [add] at [/templates/{template}/bds/-] when it does not, each carrying
    the sanitized payload [mso.sent]; outside check mode this one operation
    is what is handed to the transport. *)
Theorem present_builds_one_operation (E : Env) (p : Params)
    (s : Schema) (t : Template) (b : string) (sn vrf_ref : value) :
  state p = present →
  missing_params p = [] →
  bd p = Some b →
  get_obj E (schema p) = Ok (Some s) →
  first_named t_name (template p) (s_templates s) = Some t →
  make_reference E (vrf p) "vrf" (s_id s) (template p) = Ok vrf_ref →
  make_subnets E (subnets p) = Ok sn →
  (∀ m, present_operation (template p) (bd p) m =
        [if truthy (existing m)
         then mkPatchOp "replace" ("/templates/" +:+ template p +:+ "/bds/" +:+ b)
                (Some (sent m))
         else mkPatchOp "add" ("/templates/" +:+ template p +:+ "/bds/-")
                (Some (sent m))])
  ∧ submitted (run E p false) =
    [mkRequest ("schemas/" +:+ s_id s) "PATCH"
       [match first_named bd_name b (t_bds t) with
        | Some _ =>
            mkPatchOp "replace" ("/templates/" +:+ template p +:+ "/bds/" +:+ b)
              (Some (VDict (proposed_bd p t sn vrf_ref)))
        | None =>
            mkPatchOp "add" ("/templates/" +:+ template p +:+ "/bds/-")
              (Some (VDict (proposed_bd p t sn vrf_ref)))
        end]].
Proof.
  intros Hp Hv Hb Hs Ht Hr Hn. split.
  - intros m. unfold present_operation, replace_operation, add_operation.
    rewrite Hb. by destruct (truthy (existing m)).
  - rewrite (run_present E p false s t Hv Hs Ht sn vrf_ref) by done.
    unfold submit_and_report, present_request, lookup_bd.
    unfold replace_operation, add_operation. rewrite Hb. simpl.
    by destruct (submit E _); destruct (first_named bd_name b (t_bds t)).
Qed.

(** C3: with [state=present] the reference is resolved and the subnets are
    sanitized before any request: when the VRF reference does not resolve,
    or the subnets are rejected, the invocation fails with that error and
    nothing has been submitted. *)
Theorem present_fails_before_submitting (E : Env) (p : Params) (check_mode : bool)
    (s : Schema) (t : Template) :
  state p = present →
  missing_params p = [] →
  get_obj E (schema p) = Ok (Some s) →
  first_named t_name (template p) (s_templates s) = Some t →
  (∀ msg, make_reference E (vrf p) "vrf" (s_id s) (template p) = Err msg →
          run E p check_mode = Failed msg [])
  ∧ (∀ vrf_ref msg,
       make_reference E (vrf p) "vrf" (s_id s) (template p) = Ok vrf_ref →
       make_subnets E (subnets p) = Err msg →
       run E p check_mode = Failed msg []).
Proof.
  intros Hp Hv Hs Ht. split.
  - intros msg Hr. by apply (run_present_unresolved E p check_mode s t).
  - intros v msg Hr Hn. by apply (run_present_bad_subnets E p check_mode s t Hv Hs Ht Hp v).
Qed.

(** *** The sanitized payload, key by key *)

Lemma strip_null_lookup (d : gmap string value) (k : string) :
  strip_null d !! k =
  match d !! k with
  | Some VNone => None
  | o => o
  end.
Proof.
  unfold strip_null. rewrite map_lookup_filter.
  destruct (d !! k) as [v|]; simpl; [|done].
  case_guard as Hg; simpl in *; destruct v; done.
Qed.

Lemma drop_keys_lookup (ks : list string) (d : gmap string value) (k : string) :
  drop_keys ks d !! k = if decide (k ∈ ks) then None else d !! k.
Proof.
  unfold drop_keys. rewrite map_lookup_filter.
  destruct (d !! k) as [v|]; simpl; [|by case_decide].
  case_guard as Hg; simpl in *; by case_decide.
Qed.

Lemma sanitized_lookup (old updates : gmap string value) (ks : list string) (k : string) :
  sanitized old updates ks !! k =
  match updates !! k with
  | Some VNone | None => if decide (k ∈ ks) then None else old !! k
  | Some v => Some v
  end.
Proof.
  unfold sanitized. rewrite lookup_union, strip_null_lookup, drop_keys_lookup.
  destruct (updates !! k) as [[]|]; simpl;
    by (done || (case_decide; [done|by destruct (old !! k)])).
Qed.

Lemma payload_name (p : Params) (dn : option string) (sn v : value) :
  payload p dn sn v !! "name" = Some (of_str (bd p)).
Proof. unfold payload. by simplify_map_eq. Qed.

Lemma payload_displayName (p : Params) (dn : option string) (sn v : value) :
  payload p dn sn v !! "displayName" = Some (of_str dn).
Proof. unfold payload. by simplify_map_eq. Qed.

(** C8: with [state=present] and no display name given, the display name
    defaults to the BD's name exactly when the BD does not exist yet: the
    sanitized payload then holds [displayName = bd]; when the BD exists
    nothing is defaulted, the payload's display name stays unset and the
    sanitized payload keeps the display name the existing BD has. *)
Theorem display_name_defaults_for_new_bd (E : Env) (p : Params) (check_mode : bool)
    (s : Schema) (t : Template) (b : string) (sn vrf_ref : value) :
  state p = present →
  missing_params p = [] →
  bd p = Some b →
  display_name p = None →
  get_obj E (schema p) = Ok (Some s) →
  first_named t_name (template p) (s_templates s) = Some t →
  make_reference E (vrf p) "vrf" (s_id s) (template p) = Ok vrf_ref →
  make_subnets E (subnets p) = Ok sn →
  ∃ d,
    run E p check_mode =
    submit_and_report E check_mode (present_request p s t sn vrf_ref)
      (mkResult (bool_decide (found_existing p t ≠ VDict d)) (found_existing p t) (VDict d))
    ∧ value_of <$> req_data (present_request p s t sn vrf_ref) = [Some (VDict d)]
    ∧ (b ∉ bd_name <$> t_bds t →
       default_display_name p (found_existing p t) = Some b
       ∧ d !! "displayName" = Some (VStr b))
    ∧ (∀ o, first_named bd_name b (t_bds t) = Some o →
            default_display_name p (found_existing p t) = None
            ∧ d !! "displayName" = bd_obj o !! "displayName").
Proof.
  intros Hp Hv Hb Hd Hs Ht Hr Hn.
  exists (proposed_bd p t sn vrf_ref). split; [|split; [|split]].
  - by apply run_present.
  - unfold present_request. by destruct (lookup_bd p t).
  - intros Hno. apply first_named_None in Hno.
    unfold proposed_bd, default_display_name, found_existing, found_dict, lookup_bd.
    rewrite Hd, Hb, Hno. split; [done|].
    rewrite sanitized_lookup, payload_displayName. done.
  - intros o Ho.
    unfold proposed_bd, default_display_name, found_existing, found_dict, lookup_bd.
    rewrite Hd, Hb, Ho, truthy_bd_obj. split; [done|].
    by rewrite sanitized_lookup, payload_displayName.
Qed.

(** ** Duplicate names *)

(** C10: when the BD list of the template holds the requested name more
    than once, the entry at the lowest index is the existing object: the
    query returns it, the removal reports it as previous state, and
    [state=present] sanitizes against it, reports it as previous state and
    replaces by name. *)
Theorem first_of_duplicate_names_is_existing (E : Env) (p : Params) (check_mode : bool)
    (s : Schema) (t : Template) (b : string) (l1 l2 : list BD) (o : BD) :
  missing_params p = [] →
  get_obj E (schema p) = Ok (Some s) →
  first_named t_name (template p) (s_templates s) = Some t →
  bd p = Some b →
  t_bds t = l1 ++ o :: l2 →
  b ∉ bd_name <$> l1 →
  bd_name o = b →
  get_existing p t mso_init = Next () (set_existing (VDict (bd_obj o)) mso_init)
  ∧ (state p = query →
     run E p check_mode = Exited (mkResult false (VDict ∅) (VDict (bd_obj o))) [])
  ∧ (state p = absent →
     run E p check_mode =
     submit_and_report E check_mode (remove_request p s)
       (mkResult true (VDict (bd_obj o)) (VDict ∅)))
  ∧ (state p = present →
     ∀ sn vrf_ref,
       make_reference E (vrf p) "vrf" (s_id s) (template p) = Ok vrf_ref →
       make_subnets E (subnets p) = Ok sn →
       let d := sanitized (bd_obj o) (payload p (display_name p) sn vrf_ref) unwanted in
       run E p check_mode =
       submit_and_report E check_mode
         (mkRequest ("schemas/" +:+ s_id s) "PATCH"
            (replace_operation (template p) (bd p) (VDict d)))
         (mkResult (bool_decide (VDict (bd_obj o) ≠ VDict d)) (VDict (bd_obj o)) (VDict d))).
Proof.
  intros Hv Hs Ht Hb Hl Hl1 Ho.
  assert (Hfirst : first_named bd_name b (t_bds t) = Some o).
  { rewrite Hl. by apply first_named_app. }
  assert (Hlook : lookup_bd p t = Some o).
  { unfold lookup_bd. by rewrite Hb. }
  split; [|split; [|split]].
  - rewrite get_existing_spec. unfold found_existing, found_dict. by rewrite Hlook.
  - intros Hq. rewrite (run_query E p check_mode s t) by done. by rewrite Hb, Hfirst.
  - intros Ha. rewrite (run_absent E p check_mode s t) by done. by rewrite Hlook.
  - intros Hp sn v Hr Hn d.
    rewrite (run_present E p check_mode s t Hv Hs Ht sn v) by done.
    unfold present_request, proposed_bd, found_existing, found_dict.
    rewrite Hlook. unfold default_display_name. rewrite truthy_bd_obj. simpl.
    by destruct (display_name p).
Qed.

(** ** Unchanged objects *)

(** C1, as the code has it: with [state=present], when what [sanitize]
    proposes is structurally equal to the existing BD, the invocation
    reports [changed=false] with the BD as previous and current state; it
    still builds the [replace] operation and hands it to the transport
    unless in check mode. *)
Theorem present_unchanged_reports_no_change (E : Env) (p : Params) (check_mode : bool)
    (s : Schema) (t : Template) (b : string) (o : BD) (sn vrf_ref : value) :
  state p = present →
  missing_params p = [] →
  bd p = Some b →
  get_obj E (schema p) = Ok (Some s) →
  first_named t_name (template p) (s_templates s) = Some t →
  first_named bd_name b (t_bds t) = Some o →
  make_reference E (vrf p) "vrf" (s_id s) (template p) = Ok vrf_ref →
  make_subnets E (subnets p) = Ok sn →
  bd_obj o = proposed_bd p t sn vrf_ref →
  run E p check_mode =
  submit_and_report E check_mode
    (mkRequest ("schemas/" +:+ s_id s) "PATCH"
       [mkPatchOp "replace" ("/templates/" +:+ template p +:+ "/bds/" +:+ b)
          (Some (VDict (bd_obj o)))])
    (mkResult false (VDict (bd_obj o)) (VDict (bd_obj o))).
Proof.
  intros Hp Hv Hb Hs Ht Ho Hr Hn Heq.
  rewrite (run_present E p check_mode s t Hv Hs Ht sn vrf_ref) by done.
  unfold present_request, found_existing, found_dict, lookup_bd, replace_operation.
  rewrite Hb, Ho, <- Heq. simpl.
  by rewrite bool_decide_eq_false_2 by (intros H; by apply H).
Qed.

(** C1 fails as stated: BD1 exists exactly as proposed, the invocation
    reports [changed=false], and yet a [replace] request is submitted. *)
Lemma present_unchanged_still_submits :
  state (params (Some "BD1") (Some vrf1) present) = present
  ∧ VDict (bd_obj bd1) =
    VDict (proposed_bd (params (Some "BD1") (Some vrf1) present) tmpl_bd1 VNone vrf1_ref)
  ∧ run (ctl_env ctl_bd1) (params (Some "BD1") (Some vrf1) present) false =
    Exited (mkResult false (VDict (bd_obj bd1)) (VDict (bd_obj bd1)))
      [mkRequest "schemas/s1" "PATCH"
         [mkPatchOp "replace" "/templates/Template 1/bds/BD1" (Some (VDict (bd_obj bd1)))]]
  ∧ submitted (run (ctl_env ctl_bd1) (params (Some "BD1") (Some vrf1) present) false) ≠ [].
Proof.
  split; [reflexivity|]. split; [vm_compute; reflexivity|].
  split; [vm_compute; reflexivity|]. vm_compute. discriminate.
Qed.

(** ** Check mode *)

Lemma submit_and_report_dry (E : Env) (r : Request) (res : Result) :
  submit_and_report E true r res = Exited res [].
Proof. done. Qed.

Lemma submit_and_report_real (E : Env) (r : Request) (res res' : Result)
    (reqs : list Request) :
  submit_and_report E false r res = Exited res' reqs → res' = res.
Proof. unfold submit_and_report. destruct (submit E r); congruence. Qed.

(** C7: in check mode nothing is submitted, in any state, and what the
    invocation reports is what the same invocation reports outside check
    mode: the empty object as current state after removing an existing BD,
    the proposed sanitized payload after [state=present]. *)
Theorem check_mode_reports_without_submitting (E : Env) (p : Params) :
  submitted (run E p true) = []
  ∧ (∀ res reqs, run E p false = Exited res reqs → run E p true = Exited res [])
  ∧ (∀ s t o,
       state p = absent →
       missing_params p = [] →
       get_obj E (schema p) = Ok (Some s) →
       first_named t_name (template p) (s_templates s) = Some t →
       lookup_bd p t = Some o →
       run E p true = Exited (mkResult true (VDict (bd_obj o)) (VDict ∅)) [])
  ∧ (∀ s t sn vrf_ref,
       state p = present →
       missing_params p = [] →
       get_obj E (schema p) = Ok (Some s) →
       first_named t_name (template p) (s_templates s) = Some t →
       make_reference E (vrf p) "vrf" (s_id s) (template p) = Ok vrf_ref →
       make_subnets E (subnets p) = Ok sn →
       run E p true =
       Exited (mkResult
                 (bool_decide (found_existing p t ≠ VDict (proposed_bd p t sn vrf_ref)))
                 (found_existing p t)
                 (VDict (proposed_bd p t sn vrf_ref))) []).
Proof.
  split; [|split; [|split]].
  - destruct (run_not_located E p) as [(s & t & Hv & Hs & Ht)|[msg H]];
      [|by rewrite H].
    destruct (state p) eqn:Hst.
    + rewrite (run_absent E p true s t) by done. by destruct (lookup_bd p t).
    + destruct (make_reference E (vrf p) "vrf" (s_id s) (template p)) as [v|msg] eqn:Hr.
      * destruct (make_subnets E (subnets p)) as [sn|msg] eqn:Hn.
        -- by rewrite (run_present E p true s t Hv Hs Ht sn v).
        -- by rewrite (run_present_bad_subnets E p true s t Hv Hs Ht Hst v msg).
      * by rewrite (run_present_unresolved E p true s t Hv Hs Ht Hst msg).
    + by apply run_query_submits_nothing.
  - intros res reqs.
    destruct (run_not_located E p) as [(s & t & Hv & Hs & Ht)|[msg H]];
      [|by rewrite !H].
    destruct (state p) eqn:Hst.
    + rewrite !(run_absent E p _ s t) by done.
      destruct (lookup_bd p t); [|by intros [= <- _]].
      intros H%submit_and_report_real. by subst.
    + destruct (make_reference E (vrf p) "vrf" (s_id s) (template p)) as [v|msg] eqn:Hr.
      * destruct (make_subnets E (subnets p)) as [sn|msg] eqn:Hn.
        -- rewrite !(run_present E p _ s t Hv Hs Ht sn v) by done.
           intros H%submit_and_report_real. by subst.
        -- by rewrite !(run_present_bad_subnets E p _ s t Hv Hs Ht Hst v msg).
      * by rewrite !(run_present_unresolved E p _ s t Hv Hs Ht Hst msg).
    + rewrite !(run_query E p _ s t) by done.
      destruct (bd p) as [b|]; [|by intros [= <- _]].
      destruct (first_named bd_name b (t_bds t)); [by intros [= <- _]|done].
  - intros s t o Ha Hv Hs Ht Ho.
    rewrite (run_absent E p true s t) by done. by rewrite Ho.
  - intros s t sn v Hp Hv Hs Ht Hr Hn.
    by rewrite (run_present E p true s t Hv Hs Ht sn v).
Qed.

(** ** The controller after a patch *)

Lemma append_inv_head (a x y : string) : a +:+ x = a +:+ y → x = y.
Proof. induction a as [|c a IH]; simpl; [done|]. intros [= H]. by apply IH. Qed.

Lemma no_slash_cons (c : Ascii.ascii) (r : string) :
  no_slash (String c r) = true → c ≠ slash ∧ no_slash r = true.
Proof.
  simpl. intros [Hc Hr]%andb_true_iff. split; [|done].
  intros ->. by rewrite Ascii.eqb_refl in Hc.
Qed.

(** Two paths that agree have the same template name and the same BD
    name, when the template names hold no separator. *)
Lemma bd_path_inj (t1 t2 b1 b2 : string) :
  no_slash t1 = true → no_slash t2 = true →
  bd_path t1 b1 = bd_path t2 b2 → t1 = t2 ∧ b1 = b2.
Proof.
  unfold bd_path. intros H1 H2 H%append_inv_head.
  revert t2 H2 H. induction t1 as [|c1 t1 IH]; intros [|c2 t2] H2 H.
  - split; [done|]. by apply (append_inv_head "/bds/").
  - apply no_slash_cons in H2 as [Hc _]. simpl in H. by injection H as <- _.
  - apply no_slash_cons in H1 as [Hc _]. simpl in H. by injection H as -> _.
  - apply no_slash_cons in H1 as [_ H1]. apply no_slash_cons in H2 as [_ H2].
    simpl in H. injection H as -> H. destruct (IH H1 t2 H2 H) as [-> ->]. done.
Qed.

Lemma bd_path_inj_name (t b1 b2 : string) : bd_path t b1 = bd_path t b2 → b1 = b2.
Proof.
  unfold bd_path. intros H%append_inv_head%append_inv_head.
  by apply (append_inv_head "/bds/").
Qed.

Lemma bd_obj_as_bd (d : gmap string value) (n : string) :
  d !! "name" = Some (VStr n) →
  ∃ new, as_bd (VDict d) = Some new ∧ bd_name new = n ∧ bd_obj new = d.
Proof.
  intros H. exists (mkBD n (delete "name" d)). unfold as_bd, bd_obj. rewrite H.
  repeat split. simpl. by apply insert_delete_id.
Qed.

(** *** Replacing and appending in a BD list *)

Lemma replace_named_other (t1 t2 b : string) (new : BD) (l : list BD) :
  no_slash t1 = true → no_slash t2 = true → t1 ≠ t2 →
  replace_named t1 (bd_path t2 b) new l = None.
Proof.
  intros H1 H2 Hne. induction l as [|o l IH]; simpl; [done|].
  rewrite decide_False; [by rewrite IH|].
  intros H. by apply bd_path_inj in H as [? _].
Qed.

Lemma replace_named_first (t b : string) (new o : BD) (l : list BD) :
  first_named bd_name b l = Some o → bd_name new = b →
  ∃ l', replace_named t (bd_path t b) new l = Some l'
        ∧ first_named bd_name b l' = Some new.
Proof.
  intros Ho Hn. induction l as [|a l IH]; [done|].
  rewrite first_named_cons in Ho. simpl.
  destruct (decide (bd_name a = b)) as [e|n].
  - rewrite decide_True by (by rewrite e). eexists. split; [done|].
    by rewrite first_named_cons, decide_True.
  - rewrite decide_False by (by intros H%bd_path_inj_name).
    destruct (IH Ho) as (l' & -> & Hl'). eexists. split; [done|].
    by rewrite first_named_cons, decide_False.
Qed.

Lemma first_named_snoc {A} (name : A → string) (x : string) (l : list A) (a : A) :
  x ∉ name <$> l → name a = x → first_named name x (l ++ [a]) = Some a.
Proof. apply first_named_app. Qed.

(** *** What a patch leaves alone *)

Lemma apply_op_template_shape (o : PatchOp) (t t' : Template) :
  apply_op_template o t = Some t' → same_shape t t'.
Proof.
  unfold apply_op_template, same_shape. intros H.
  repeat case_decide; simplify_option_eq; done.
Qed.

Lemma apply_op_shape (o : PatchOp) (l : list Template) :
  Forall2 same_shape l (apply_op o l).
Proof.
  induction l as [|t l IH]; simpl; [constructor|].
  destruct (apply_op_template o t) as [t'|] eqn:H.
  - constructor; [by apply apply_op_template_shape in H|].
    apply Forall2_same_length_lookup_2; [done|]. intros i a b Ha Hb.
    by simplify_eq.
  - constructor; [done|apply IH].
Qed.

Lemma same_shape_trans (l1 l2 l3 : list Template) :
  Forall2 same_shape l1 l2 → Forall2 same_shape l2 l3 → Forall2 same_shape l1 l3.
Proof.
  intros H. revert l3. induction H as [|a b l1 l2 [Hab Hab'] H IH]; intros l3 H3.
  - by inversion H3.
  - inversion H3 as [|? c ? l3' [Hbc Hbc'] H3']; subst. constructor.
    + split; congruence.
    + by apply IH.
Qed.

Lemma same_shape_refl (l : list Template) : Forall2 same_shape l l.
Proof. induction l; constructor; done. Qed.

Lemma apply_ops_shape (ops : list PatchOp) (l : list Template) :
  Forall2 same_shape l (apply_ops ops l).
Proof.
  unfold apply_ops. revert l. induction ops as [|o ops IH]; intros l; simpl.
  - apply same_shape_refl.
  - eapply same_shape_trans; [apply apply_op_shape|apply IH].
Qed.

Lemma first_named_shape (x : string) (l l' : list Template) :
  Forall2 same_shape l l' →
  match first_named t_name x l, first_named t_name x l' with
  | Some a, Some b => same_shape a b
  | None, None => True
  | _, _ => False
  end.
Proof.
  induction 1 as [|a b l l' [Hn Hv] H IH]; [done|].
  rewrite !first_named_cons, <- Hn. by destruct (decide (t_name a = x)).
Qed.

Lemma first_named_fmap {A} (name : A → string) (g : A → A) (x : string) (l : list A) :
  (∀ a, name (g a) = name a) →
  first_named name x (g <$> l) = g <$> first_named name x l.
Proof.
  intros Hg. induction l as [|a l IH]; [done|].
  rewrite fmap_cons, !first_named_cons, Hg, IH. by destruct (decide (name a = x)).
Qed.

Lemma apply_to_schema_id (r : Request) (s : Schema) : s_id (apply_to_schema r s) = s_id s.
Proof. unfold apply_to_schema. by case_decide. Qed.

Lemma apply_to_schema_displayName (r : Request) (s : Schema) :
  s_displayName (apply_to_schema r s) = s_displayName s.
Proof. unfold apply_to_schema. by case_decide. Qed.

Lemma apply_to_schema_shape (r : Request) (s : Schema) :
  Forall2 same_shape (s_templates s) (s_templates (apply_to_schema r s)).
Proof.
  unfold apply_to_schema. case_decide; [apply apply_ops_shape|apply same_shape_refl].
Qed.

(** References resolve after a patch as they did before it. *)
Lemma ctl_make_reference_patched (r : Request) (c : Controller)
    (data : option Reference) (reftype schema_id template : string) :
  ctl_make_reference (apply_request r c) data reftype schema_id template =
  ctl_make_reference c data reftype schema_id template.
Proof.
  unfold ctl_make_reference, apply_request. destruct data as [d|]; [|done].
  assert (Ht : ∀ o : option Schema,
    match apply_to_schema r <$> o with
    | None => Err ("ReferenceNotFound: schema of " +:+ reftype +:+ " '" +:+ ref_name d +:+ "'")
    | Some s =>
        match first_named t_name (default template (ref_template d)) (s_templates s) with
        | None => Err ("ReferenceNotFound: template '" +:+ default template (ref_template d) +:+ "'")
        | Some t =>
            if py_in (ref_name d) (t_vrfs t)
            then Ok (VStr ("/schemas/" +:+ s_id s +:+ "/templates/" +:+
                           default template (ref_template d) +:+
                           "/" +:+ reftype +:+ "s/" +:+ ref_name d))
            else Err ("ReferenceNotFound: " +:+ reftype +:+ " '" +:+ ref_name d +:+ "'")
        end
    end =
    match o with
    | None => Err ("ReferenceNotFound: schema of " +:+ reftype +:+ " '" +:+ ref_name d +:+ "'")
    | Some s =>
        match first_named t_name (default template (ref_template d)) (s_templates s) with
        | None => Err ("ReferenceNotFound: template '" +:+ default template (ref_template d) +:+ "'")
        | Some t =>
            if py_in (ref_name d) (t_vrfs t)
            then Ok (VStr ("/schemas/" +:+ s_id s +:+ "/templates/" +:+
                           default template (ref_template d) +:+
                           "/" +:+ reftype +:+ "s/" +:+ ref_name d))
            else Err ("ReferenceNotFound: " +:+ reftype +:+ " '" +:+ ref_name d +:+ "'")
        end
    end).
  { intros [s|]; [|done]. simpl. rewrite apply_to_schema_id.
    pose proof (first_named_shape (default template (ref_template d)) _ _
                  (apply_to_schema_shape r s)) as H.
    destruct (first_named _ _ (s_templates s)) as [a|],
             (first_named _ _ (s_templates (apply_to_schema r s))) as [b|]; try done.
    destruct H as [_ <-]. done. }
  destruct (ref_schema d) as [n|].
  - rewrite first_named_fmap by apply apply_to_schema_displayName. apply Ht.
  - rewrite first_named_fmap by apply apply_to_schema_id. apply Ht.
Qed.

(** *** The template addressed by the patch of [state=present] *)

Lemma plain_first_named (x : string) (l : list Template) (t : Template) :
  plain_names l → first_named t_name x l = Some t → no_slash x = true.
Proof.
  unfold plain_names. intros Hl Ht. induction Hl as [|a l Ha Hl IH]; [done|].
  rewrite first_named_cons in Ht. destruct (decide (t_name a = x)) as [<-|]; auto.
Qed.

Lemma apply_op_add_first (x : string) (v : value) (new : BD)
    (l : list Template) (t : Template) :
  plain_names l → first_named t_name x l = Some t → as_bd v = Some new →
  first_named t_name x (apply_op (mkPatchOp "add" (bd_path x "-") (Some v)) l) =
  Some (mkTemplate (t_name t) (t_bds t ++ [new]) (t_vrfs t)).
Proof.
  intros Hl Ht Hv. pose proof (plain_first_named _ _ _ Hl Ht) as Hx.
  induction Hl as [|a l Ha Hl IH]; [done|].
  rewrite first_named_cons in Ht. simpl.
  unfold apply_op_template at 1. simpl. rewrite Hv. simpl.
  destruct (decide (t_name a = x)) as [e|n].
  - injection Ht as ->. rewrite e, decide_True by done.
    by rewrite first_named_cons, decide_True.
  - rewrite decide_False by (intros H%bd_path_inj; [by destruct H|done..]).
    rewrite first_named_cons, decide_False by done. by apply IH.
Qed.

Lemma apply_op_replace_first (x b : string) (v : value) (new o : BD)
    (l : list Template) (t : Template) :
  plain_names l → first_named t_name x l = Some t → as_bd v = Some new →
  first_named bd_name b (t_bds t) = Some o → bd_name new = b →
  ∃ t', first_named t_name x (apply_op (mkPatchOp "replace" (bd_path x b) (Some v)) l)
        = Some t'
        ∧ first_named bd_name b (t_bds t') = Some new.
Proof.
  intros Hl Ht Hv Ho Hn. pose proof (plain_first_named _ _ _ Hl Ht) as Hx.
  induction Hl as [|a l Ha Hl IH]; [done|].
  rewrite first_named_cons in Ht. simpl.
  unfold apply_op_template at 1. simpl. rewrite Hv. simpl.
  destruct (decide (t_name a = x)) as [e|n].
  - injection Ht as ->. rewrite e.
    destruct (replace_named_first x b new o (t_bds t) Ho Hn) as (l' & -> & Hl').
    simpl. rewrite bool_decide_eq_true_2 by done. eexists. split; [done|].
    exact Hl'.
  - rewrite replace_named_other by done. simpl.
    rewrite bool_decide_eq_false_2 by done. by apply IH.
Qed.

Lemma dict_not_empty (d : gmap string value) (k : string) (x : value) :
  d !! k = Some x → dict_is_empty d = false.
Proof.
  intros H. apply not_true_iff_false. rewrite dict_is_empty_spec.
  intros ->. by rewrite lookup_empty in H.
Qed.

Lemma proposed_bd_name (p : Params) (t : Template) (b : string) (sn v : value) :
  bd p = Some b → proposed_bd p t sn v !! "name" = Some (VStr b).
Proof.
  intros Hb. unfold proposed_bd. rewrite sanitized_lookup, payload_name. by rewrite Hb.
Qed.

Lemma payload_lookup_other (p : Params) (dn dn' : option string) (sn v : value)
    (k : string) :
  k ≠ "displayName" → payload p dn sn v !! k = payload p dn' sn v !! k.
Proof.
  intros Hk. unfold payload.
  destruct (decide (k = "name")) as [->|]; [by rewrite !lookup_insert_eq|].
  rewrite !(lookup_insert_ne _ "name") by done.
  by rewrite !(lookup_insert_ne _ "displayName") by done.
Qed.

(** Sanitizing against what was just proposed proposes it again. *)
Lemma sanitized_again (old u1 u2 : gmap string value) (ks : list string) :
  (∀ k, u2 !! k = u1 !! k ∨ (u2 !! k = Some VNone ∧ k ∉ ks)) →
  sanitized (sanitized old u1 ks) u2 ks = sanitized old u1 ks.
Proof.
  intros H. apply map_eq. intros k. rewrite (sanitized_lookup (sanitized old u1 ks)).
  destruct (H k) as [->|[-> Hk]].
  - rewrite sanitized_lookup.
    destruct (u1 !! k) as [[]|]; try done; by case_decide.
  - by rewrite decide_False.
Qed.

Lemma default_display_name_existing (p : Params) (d : gmap string value) (x : value) :
  d !! "name" = Some x → default_display_name p (VDict d) = display_name p.
Proof.
  intros H. unfold default_display_name. cbn [truthy].
  rewrite (dict_not_empty _ _ _ H). by destruct (display_name p).
Qed.

Lemma proposed_bd_again (p : Params) (t t' : Template) (b : string) (sn v : value) :
  bd p = Some b →
  found_dict p t' = proposed_bd p t sn v →
  proposed_bd p t' sn v = proposed_bd p t sn v.
Proof.
  intros Hb Hf. unfold proposed_bd at 1. unfold found_existing at 1. rewrite Hf.
  rewrite (default_display_name_existing p _ (VStr b)) by (by apply proposed_bd_name).
  unfold proposed_bd. apply sanitized_again. intros k.
  destruct (decide (k = "displayName")) as [->|Hk];
    [|left; by apply payload_lookup_other].
  rewrite !payload_displayName. unfold default_display_name.
  destruct (display_name p) as [dn|]; [by left|]. right. split; [done|].
  unfold unwanted. rewrite !not_elem_of_cons.
  repeat split; [done..|apply not_elem_of_nil].
Qed.

Lemma apply_to_schema_own (r : Request) (s : Schema) :
  req_method r = "PATCH" → req_path r = "schemas/" +:+ s_id s →
  s_templates (apply_to_schema r s) = apply_ops (req_data r) (s_templates s).
Proof.
  intros Hm Hp. unfold apply_to_schema.
  destruct (decide (req_method r = "PATCH" ∧ req_path r = "schemas/" +:+ s_id s))
    as [_|Hn]; [done|]. by destruct Hn.
Qed.

(** The schema after the request of [state=present]: the template holds
    what was proposed as the BD of that name. *)
Lemma present_request_applied (p : Params) (s : Schema) (t : Template) (b : string)
    (sn v : value) :
  bd p = Some b →
  plain_names (s_templates s) →
  first_named t_name (template p) (s_templates s) = Some t →
  ∃ t',
    first_named t_name (template p)
      (s_templates (apply_to_schema (present_request p s t sn v) s)) = Some t'
    ∧ found_dict p t' = proposed_bd p t sn v.
Proof.
  intros Hb Hplain Ht.
  destruct (bd_obj_as_bd (proposed_bd p t sn v) b (proposed_bd_name p t b sn v Hb))
    as (new & Hnew & Hname & Hobj).
  rewrite apply_to_schema_own by reflexivity.
  unfold present_request. cbn [req_data].
  unfold lookup_bd at 1. rewrite Hb.
  destruct (first_named bd_name b (t_bds t)) as [o|] eqn:Ho.
  - unfold replace_operation, apply_ops. cbn [foldl fmt].
    destruct (apply_op_replace_first (template p) b (VDict (proposed_bd p t sn v)) new o _ t Hplain Ht Hnew Ho Hname)
      as (t' & Ht' & Hb').
    exists t'. split; [exact Ht'|]. unfold found_dict, lookup_bd. by rewrite Hb, Hb'.
  - unfold add_operation, apply_ops. cbn [foldl].
    pose proof (apply_op_add_first (template p) (VDict (proposed_bd p t sn v)) new _ t Hplain Ht Hnew) as Ht'.
    eexists. split; [exact Ht'|]. unfold found_dict, lookup_bd. rewrite Hb.
    cbn [t_bds]. rewrite first_named_snoc; [done| |done].
    by apply first_named_None.
Qed.

(** ** Twice in succession *)

(** C9, as the code has it. Outside check mode, against a controller that
    applies the patch and whose template names hold no path separator: when
    a [state=present] invocation exits, it reports [changed=true] exactly
    when the existing BD differs from what is proposed, so whenever the BD
    did not exist or was stored differently; the same invocation run again
    exits with [changed=false]. *)
Theorem present_twice_second_unchanged (c : Controller) (p : Params)
    (res1 : Result) (reqs1 : list Request) :
  state p = present →
  (∀ s, first_named s_displayName (schema p) c = Some s → plain_names (s_templates s)) →
  run (ctl_env c) p false = Exited res1 reqs1 →
  (∀ s t sn v,
     first_named s_displayName (schema p) c = Some s →
     first_named t_name (template p) (s_templates s) = Some t →
     make_reference (ctl_env c) (vrf p) "vrf" (s_id s) (template p) = Ok v →
     make_subnets (ctl_env c) (subnets p) = Ok sn →
     (changed res1 = true ↔ found_existing p t ≠ VDict (proposed_bd p t sn v))
     ∧ (lookup_bd p t = None → changed res1 = true))
  ∧ ∃ res2 reqs2,
      run (ctl_env (apply_requests reqs1 c)) p false = Exited res2 reqs2
      ∧ changed res2 = false.
Proof.
  intros Hp Hplain Hrun.
  destruct (run_not_located (ctl_env c) p) as [(s & t & Hv & Hs & Ht)|[msg H]];
    [|by rewrite H in Hrun].
  assert (Hs' : first_named s_displayName (schema p) c = Some s).
  { simpl in Hs. unfold ctl_get_obj in Hs. congruence. }
  assert (Hb : ∃ b, bd p = Some b).
  { unfold missing_params in Hv. rewrite Hp in Hv. destruct (bd p); [eauto|done]. }
  destruct Hb as [b Hb].
  destruct (make_reference (ctl_env c) (vrf p) "vrf" (s_id s) (template p))
    as [v|msg] eqn:Hr;
    [|by rewrite (run_present_unresolved _ p false s t Hv Hs Ht Hp msg) in Hrun].
  destruct (make_subnets (ctl_env c) (subnets p)) as [sn|msg] eqn:Hn;
    [|by rewrite (run_present_bad_subnets _ p false s t Hv Hs Ht Hp v msg) in Hrun].
  rewrite (run_present _ p false s t Hv Hs Ht sn v) in Hrun by done.
  unfold submit_and_report in Hrun. cbn [submit ctl_env] in Hrun.
  injection Hrun as <- <-. split.
  - intros s0 t0 sn0 v0 Hs0 Ht0 Hr0 Hn0. assert (s0 = s) as -> by congruence.
    assert (t0 = t) as -> by congruence.
    assert (v0 = v) as -> by congruence. assert (sn0 = sn) as -> by congruence.
    cbn [changed]. split; [apply bool_decide_eq_true|].
    intros Hnone. apply bool_decide_eq_true.
    unfold found_existing, found_dict. rewrite Hnone.
    intros H%VDict_inj. pose proof (proposed_bd_name p t b sn v Hb) as Hname.
    rewrite <- H in Hname. by rewrite lookup_empty in Hname.
  - destruct (present_request_applied p s t b sn v Hb (Hplain s Hs') Ht)
      as (t' & Ht' & Hfound).
    set (r := present_request p s t sn v) in *.
    assert (Hs2 : get_obj (ctl_env (apply_requests [r] c)) (schema p)
                  = Ok (Some (apply_to_schema r s))).
    { cbn [get_obj ctl_env apply_requests foldl]. unfold ctl_get_obj, apply_request.
      rewrite first_named_fmap by apply apply_to_schema_displayName. by rewrite Hs'. }
    assert (Hr2 : make_reference (ctl_env (apply_requests [r] c)) (vrf p) "vrf"
                    (s_id (apply_to_schema r s)) (template p) = Ok v).
    { cbn [make_reference ctl_env apply_requests foldl].
      rewrite ctl_make_reference_patched, apply_to_schema_id. exact Hr. }
    rewrite (run_present _ p false (apply_to_schema r s) t' Hv Hs2 Ht' sn v Hp Hr2 Hn).
    unfold submit_and_report. cbn [submit ctl_env].
    eexists _, _. split; [reflexivity|]. cbn [changed].
    rewrite (proposed_bd_again p t t' b) by done.
    unfold found_existing. rewrite Hfound.
    by apply bool_decide_eq_false_2; intros H; apply H.
Qed.

(** C9 fails as stated: when BD1 already exists as proposed, the first of
    the two invocations reports [changed=false]. *)
Lemma present_first_may_report_unchanged :
  run (ctl_env ctl_bd1) (params (Some "BD1") (Some vrf1) present) false =
  Exited (mkResult false (VDict (bd_obj bd1)) (VDict (bd_obj bd1)))
    [mkRequest "schemas/s1" "PATCH"
       [mkPatchOp "replace" "/templates/Template 1/bds/BD1" (Some (VDict (bd_obj bd1)))]]
  ∧ changed (mkResult false (VDict (bd_obj bd1)) (VDict (bd_obj bd1))) ≠ true.
Proof. split; [vm_compute; reflexivity|discriminate]. Qed.

(** ** The theorems at concrete invocations *)

Lemma schema_or_template_not_found_witness :
  run (ctl_env ctl_empty) (params_at "Schema 2" "Template 1" None None query) false =
  Failed "Provided schema 'Schema 2' does not exist" []
  ∧ run (ctl_env ctl_empty) (params_at "Schema 1" "Template 2" None None query) false =
    Failed "Provided template 'Template 2' does not exist. Existing templates: Template 1" [].
Proof.
  split.
  - apply (proj1 (schema_or_template_not_found (ctl_env ctl_empty)
                    (params_at "Schema 2" "Template 1" None None query) false eq_refl)).
    reflexivity.
  - apply (proj2 (schema_or_template_not_found (ctl_env ctl_empty)
                    (params_at "Schema 1" "Template 2" None None query) false eq_refl)
             schema_empty); [reflexivity|].
    apply not_elem_of_cons. split; [discriminate|apply not_elem_of_nil].
Defined.

Lemma query_reports_without_submitting_witness :
  state query_bd1 = query
  ∧ submitted (run (ctl_env ctl_bd1) query_bd1 false) = []
  ∧ run (ctl_env ctl_bd1) query_bd1 false =
    Exited (mkResult false (VDict ∅) (VDict (bd_obj bd1))) [].
Proof.
  split; [reflexivity|].
  destruct (query_reports_without_submitting (ctl_env ctl_bd1) query_bd1 false eq_refl)
    as [Hnone Hres].
  split; [exact Hnone|].
  destruct (Hres schema_bd1 tmpl_bd1 eq_refl eq_refl) as (_ & Hfound & _).
  apply (Hfound "BD1" bd1); reflexivity.
Defined.

Lemma absent_removes_or_is_noop_witness :
  state absent_bd1 = absent
  ∧ bd absent_bd1 = Some "BD1"
  ∧ run (ctl_env ctl_bd1) absent_bd1 false =
    submit_and_report (ctl_env ctl_bd1) false remove_bd1
      (mkResult true (VDict (bd_obj bd1)) (VDict ∅)).
Proof.
  split; [reflexivity|]. split; [reflexivity|].
  apply (proj2 (absent_removes_or_is_noop (ctl_env ctl_bd1) absent_bd1 false
                  schema_bd1 tmpl_bd1 "BD1" eq_refl eq_refl eq_refl eq_refl) bd1).
  reflexivity.
Defined.

Lemma present_builds_one_operation_witness :
  state present_bd1 = present
  ∧ submitted (run (ctl_env ctl_bd1) present_bd1 false) =
    [mkRequest "schemas/s1" "PATCH"
       [mkPatchOp "replace" "/templates/Template 1/bds/BD1"
          (Some (VDict (proposed_bd present_bd1 tmpl_bd1 VNone vrf1_ref)))]].
Proof.
  split; [reflexivity|].
  apply (proj2 (present_builds_one_operation (ctl_env ctl_bd1) present_bd1
                  schema_bd1 tmpl_bd1 "BD1" VNone vrf1_ref
                  eq_refl eq_refl eq_refl eq_refl eq_refl eq_refl eq_refl)).
Defined.

Lemma present_fails_before_submitting_witness :
  run (ctl_env ctl_empty) present_vrf2 false = Failed "ReferenceNotFound: vrf 'VRF2'" []
  ∧ run (ctl_env ctl_empty) present_bad_subnet false =
    Failed "InvalidSubnet: the ip of a subnet is missing" [].
Proof.
  split.
  - apply (proj1 (present_fails_before_submitting (ctl_env ctl_empty) present_vrf2 false
                    schema_empty tmpl_empty eq_refl eq_refl eq_refl eq_refl)).
    reflexivity.
  - apply (proj2 (present_fails_before_submitting (ctl_env ctl_empty) present_bad_subnet
                    false schema_empty tmpl_empty eq_refl eq_refl eq_refl eq_refl)
             vrf1_ref); reflexivity.
Defined.

Lemma display_name_defaults_for_new_bd_witness :
  display_name present_bd1 = None
  ∧ ∃ d,
      run (ctl_env ctl_empty) present_bd1 true =
      Exited (mkResult (bool_decide (VDict ∅ ≠ VDict d)) (VDict ∅) (VDict d)) []
      ∧ d !! "displayName" = Some (VStr "BD1").
Proof.
  split; [reflexivity|].
  destruct (display_name_defaults_for_new_bd (ctl_env ctl_empty) present_bd1 true
              schema_empty tmpl_empty "BD1" VNone vrf1_ref
              eq_refl eq_refl eq_refl eq_refl eq_refl eq_refl eq_refl eq_refl)
    as (d & Hrun & _ & Hnew & _).
  exists d. split; [exact Hrun|]. apply Hnew, not_elem_of_nil.
Defined.

Lemma first_of_duplicate_names_is_existing_witness :
  t_bds tmpl_dup = [] ++ bd1 :: [bd1_again]
  ∧ bd_name bd1_again = bd_name bd1
  ∧ run (ctl_env ctl_dup) query_bd1 false =
    Exited (mkResult false (VDict ∅) (VDict (bd_obj bd1))) [].
Proof.
  split; [reflexivity|]. split; [reflexivity|].
  apply (first_of_duplicate_names_is_existing (ctl_env ctl_dup) query_bd1 false
           schema_dup tmpl_dup "BD1" [] [bd1_again] bd1
           eq_refl eq_refl eq_refl eq_refl eq_refl (not_elem_of_nil _) eq_refl).
  reflexivity.
Defined.

Lemma present_unchanged_reports_no_change_witness :
  bd_obj bd1 = proposed_bd present_bd1 tmpl_bd1 VNone vrf1_ref
  ∧ run (ctl_env ctl_bd1) present_bd1 false =
    submit_and_report (ctl_env ctl_bd1) false replace_bd1
      (mkResult false (VDict (bd_obj bd1)) (VDict (bd_obj bd1))).
Proof.
  assert (H : bd_obj bd1 = proposed_bd present_bd1 tmpl_bd1 VNone vrf1_ref)
    by (vm_compute; reflexivity).
  split; [exact H|].
  apply (present_unchanged_reports_no_change (ctl_env ctl_bd1) present_bd1 false
           schema_bd1 tmpl_bd1 "BD1" bd1 VNone vrf1_ref
           eq_refl eq_refl eq_refl eq_refl eq_refl eq_refl eq_refl eq_refl H).
Defined.

Lemma check_mode_reports_without_submitting_witness :
  run (ctl_env ctl_bd1) absent_bd1 false =
  Exited (mkResult true (VDict (bd_obj bd1)) (VDict ∅)) [remove_bd1]
  ∧ run (ctl_env ctl_bd1) absent_bd1 true =
    Exited (mkResult true (VDict (bd_obj bd1)) (VDict ∅)) [].
Proof.
  assert (H : run (ctl_env ctl_bd1) absent_bd1 false =
              Exited (mkResult true (VDict (bd_obj bd1)) (VDict ∅)) [remove_bd1])
    by (vm_compute; reflexivity).
  split; [exact H|].
  apply (proj1 (proj2 (check_mode_reports_without_submitting (ctl_env ctl_bd1) absent_bd1))
           _ _ H).
Defined.

Lemma present_twice_second_unchanged_witness :
  run (ctl_env ctl_bd1) present_renamed false =
  Exited (mkResult true (VDict (bd_obj bd1)) (VDict (bd_obj bd1_renamed)))
    [replace_bd1_renamed]
  ∧ VDict (bd_obj bd1) ≠ VDict (bd_obj bd1_renamed)
  ∧ ∃ res2 reqs2,
      run (ctl_env (apply_requests [replace_bd1_renamed] ctl_bd1)) present_renamed false =
      Exited res2 reqs2
      ∧ changed res2 = false.
Proof.
  assert (H : run (ctl_env ctl_bd1) present_renamed false =
              Exited (mkResult true (VDict (bd_obj bd1)) (VDict (bd_obj bd1_renamed)))
                [replace_bd1_renamed])
    by (vm_compute; reflexivity).
  split; [exact H|]. split; [by vm_compute|].
  refine (proj2 (present_twice_second_unchanged ctl_bd1 present_renamed
                   (mkResult true (VDict (bd_obj bd1)) (VDict (bd_obj bd1_renamed)))
                   [replace_bd1_renamed] eq_refl _ H)).
  intros s Hs. vm_compute in Hs. apply Some_inj in Hs. subst s.
  repeat constructor.
Defined.

(** ** The examples of the specification *)

Example add_new_bd :
  run (ctl_env ctl_empty) present_bd1 false =
  Exited (mkResult true (VDict ∅) (VDict (bd_obj bd1))) [add_bd1].
Proof. vm_compute. reflexivity. Qed.

Example query_before_creation :
  run (ctl_env ctl_empty) query_bd1 false = Failed "BD 'BD1' not found" [].
Proof. vm_compute. reflexivity. Qed.

Example remove_then_repeat :
  run (ctl_env ctl_bd1) absent_bd1 false =
  Exited (mkResult true (VDict (bd_obj bd1)) (VDict ∅)) [remove_bd1]
  ∧ apply_requests [remove_bd1] ctl_bd1 = ctl_empty
  ∧ run (ctl_env ctl_empty) absent_bd1 false =
    Exited (mkResult false (VDict ∅) (VDict ∅)) [].
Proof. repeat split; vm_compute; reflexivity. Qed.

Example add_then_query :
  apply_requests [add_bd1] ctl_empty = ctl_bd1
  ∧ run (ctl_env ctl_bd1) query_bd1 false =
    Exited (mkResult false (VDict ∅) (VDict (bd_obj bd1))) [].
Proof. repeat split; vm_compute; reflexivity. Qed.

Example transport_down :
  run (ctl_env_down ctl_empty) present_bd1 false = Failed "TransportError" [add_bd1].
Proof. vm_compute. reflexivity. Qed.

(** * Further properties of [main] *)

Lemma submit_and_report_exit (E : Env) (c : bool) (r : Request) (res res' : Result)
    (reqs : list Request) :
  submit_and_report E c r res = Exited res' reqs → res' = res.
Proof.
  unfold submit_and_report. destruct c; [congruence|].
  destruct (submit E r); congruence.
Qed.

(** ** The shape of every invocation *)

(** An invocation either fails before anything is submitted, or exits
    without a request, or reaches the transport with one request of one
    operation; which of the three does not depend on check mode. *)
Lemma run_shape (E : Env) (p : Params) :
  (∃ msg, ∀ c, run E p c = Failed msg [])
  ∨ (∃ r, ∀ c, run E p c = Exited r [])
  ∨ (∃ s b o r,
       get_obj E (schema p) = Ok (Some s) ∧ bd p = Some b ∧ patch_op_for p b o ∧
       ∀ c, run E p c =
            submit_and_report E c (mkRequest ("schemas/" +:+ s_id s) "PATCH" [o]) r).
Proof.
  destruct (run_not_located E p) as [(s & t & Hv & Hs & Ht)|H]; [|by left].
  destruct (state p) eqn:Hst.
  - assert (Hb : ∃ b, bd p = Some b).
    { unfold missing_params in Hv. rewrite Hst in Hv. destruct (bd p); [eauto|done]. }
    destruct Hb as [b Hb].
    destruct (lookup_bd p t) as [o|] eqn:Ho.
    + right. right. eexists s, b, _, _. repeat split; [done..| |].
      * left. split; [done|reflexivity].
      * intros c. rewrite (run_absent E p c s t) by done. rewrite Ho.
        unfold remove_request, remove_operation, bd_path. by rewrite Hb.
    + right. left. eexists. intros c.
      rewrite (run_absent E p c s t) by done. by rewrite Ho.
  - assert (Hb : ∃ b, bd p = Some b).
    { unfold missing_params in Hv. rewrite Hst in Hv. destruct (bd p); [eauto|done]. }
    destruct Hb as [b Hb].
    destruct (make_reference E (vrf p) "vrf" (s_id s) (template p)) as [v|msg] eqn:Hr.
    2:{ left. exists msg. intros c. by apply (run_present_unresolved E p c s t). }
    destruct (make_subnets E (subnets p)) as [sn|msg] eqn:Hn.
    2:{ left. exists msg. intros c.
        by apply (run_present_bad_subnets E p c s t Hv Hs Ht Hst v). }
    right. right.
    destruct (lookup_bd p t) as [o|] eqn:Ho.
    + eexists s, b, _, _. repeat split; [done..| |].
      * right. split; [done|]. eexists. left. reflexivity.
      * intros c. rewrite (run_present E p c s t Hv Hs Ht sn v) by done.
        unfold present_request. rewrite Ho.
        unfold replace_operation, bd_path. by rewrite Hb.
    + eexists s, b, _, _. repeat split; [done..| |].
      * right. split; [done|]. eexists. right. reflexivity.
      * intros c. rewrite (run_present E p c s t Hv Hs Ht sn v) by done.
        unfold present_request. rewrite Ho. reflexivity.
  - destruct (bd p) as [b|] eqn:Hb.
    + destruct (first_named bd_name b (t_bds t)) as [o|] eqn:Ho.
      * right. left. eexists. intros c.
        rewrite (run_query E p c s t) by done. by rewrite Hb, Ho.
      * left. eexists. intros c.
        rewrite (run_query E p c s t) by done. by rewrite Hb, Ho.
    + right. left. eexists. intros c.
      rewrite (run_query E p c s t) by done. by rewrite Hb.
Qed.

(** ** Requests *)

(** An invocation hands at most one request to the transport, and only
    outside check mode: a PATCH of the fetched schema, [schemas/{id}], that
    holds exactly one operation on the named BD of the named template. *)
Theorem at_most_one_patch (E : Env) (p : Params) (check_mode : bool) :
  submitted (run E p check_mode) = []
  ∨ ∃ s b o,
      check_mode = false
      ∧ get_obj E (schema p) = Ok (Some s)
      ∧ bd p = Some b
      ∧ patch_op_for p b o
      ∧ submitted (run E p check_mode) =
        [mkRequest ("schemas/" +:+ s_id s) "PATCH" [o]].
Proof.
  destruct (run_shape E p) as [[msg H]|[[r H]|(s & b & o & r & Hs & Hb & Ho & H)]];
    [left; by rewrite H..|].
  rewrite H. unfold submit_and_report. destruct check_mode; [by left|].
  right. exists s, b, o. repeat split; [done..|]. by destruct (submit E _).
Qed.

(** A failure that comes with a submitted request is the transport's: every
    other [fail_json] of an invocation happens before anything is submitted. *)
Theorem failure_after_submission_is_transport (E : Env) (p : Params)
    (check_mode : bool) (msg : string) (reqs : list Request) :
  run E p check_mode = Failed msg reqs →
  reqs = [] ∨ ∃ r, reqs = [r] ∧ submit E r = Some msg ∧ check_mode = false.
Proof.
  destruct (run_shape E p) as [[m H]|[[r H]|(s & b & o & r & _ & _ & _ & H)]];
    rewrite H; [by intros [= _ <-]; left|done|].
  unfold submit_and_report. destruct check_mode; [done|].
  destruct (submit E _) as [m|] eqn:Hm; [|done].
  intros [= <- <-]. right. eauto.
Qed.

Lemma failure_after_submission_is_transport_witness :
  run (ctl_env_down ctl_empty) present_bd1 false = Failed "TransportError" [add_bd1]
  ∧ ([add_bd1] = [] ∨
     ∃ r, [add_bd1] = [r] ∧ submit (ctl_env_down ctl_empty) r = Some "TransportError"
          ∧ false = false).
Proof.
  assert (H : run (ctl_env_down ctl_empty) present_bd1 false =
              Failed "TransportError" [add_bd1]) by (vm_compute; reflexivity).
  split; [exact H|].
  exact (failure_after_submission_is_transport (ctl_env_down ctl_empty) present_bd1 false
           "TransportError" [add_bd1] H).
Defined.

(** ** Check mode against the real run *)

(** What check mode reports is what the real run does, up to the transport:
    a failure in check mode is the failure of the real run, before any
    request; an exit in check mode is the exit of the real run, unless the
    transport rejects the one request the real run submits. *)
Theorem check_mode_predicts_real_run (E : Env) (p : Params) :
  (∀ msg reqs, run E p true = Failed msg reqs →
               reqs = [] ∧ run E p false = Failed msg [])
  ∧ (∀ r reqs, run E p true = Exited r reqs →
               reqs = []
               ∧ (run E p false = Exited r []
                  ∨ ∃ req, run E p false =
                           match submit E req with
                           | None => Exited r [req]
                           | Some msg => Failed msg [req]
                           end)).
Proof.
  destruct (run_shape E p) as [[m H]|[[r0 H]|(s & b & o & r0 & _ & _ & _ & H)]];
    rewrite !H; split.
  - by intros msg reqs [= <- <-].
  - done.
  - done.
  - intros r reqs [= <- <-]. split; [done|by left].
  - done.
  - intros r reqs [= <- <-]. split; [done|]. right. eexists. reflexivity.
Qed.

Lemma check_mode_predicts_real_run_witness :
  run (ctl_env ctl_empty) present_vrf2 true = Failed "ReferenceNotFound: vrf 'VRF2'" []
  ∧ run (ctl_env ctl_empty) present_vrf2 false = Failed "ReferenceNotFound: vrf 'VRF2'" [].
Proof.
  assert (H : run (ctl_env ctl_empty) present_vrf2 true =
              Failed "ReferenceNotFound: vrf 'VRF2'" []) by (vm_compute; reflexivity).
  split; [exact H|].
  exact (proj2 (proj1 (check_mode_predicts_real_run (ctl_env ctl_empty) present_vrf2)
                  _ _ H)).
Defined.

(** ** Arguments *)

Lemma run_invalid (E : Env) (p : Params) (check_mode : bool) :
  missing_params p ≠ [] →
  run E p check_mode =
  Failed ("state is " +:+ state_name (state p) +:+
          " but all of the following are missing: " +:+ join ", " (missing_params p)) [].
Proof.
  intros Hv. unfold run, main, ansible_module.
  unfold mbind at 1, M_bind at 1. by destruct (missing_params p).
Qed.

Lemma run_fetch_failed (E : Env) (p : Params) (check_mode : bool) (msg : string) :
  missing_params p = [] →
  get_obj E (schema p) = Err msg →
  run E p check_mode = Failed msg [].
Proof.
  intros Hv Hs. unfold run, main.
  unfold mbind at 1, M_bind at 1. rewrite ansible_module_ok by done.
  unfold get_schema. run_monad. by rewrite Hs.
Qed.

(** The [required_if] table of lines 178-181 is checked before the schema
    is fetched: [state=absent] without [bd], and [state=present] without
    [bd] or without [vrf], fail with a message that no controller changes,
    and submit nothing. *)
Theorem required_arguments_checked_first (p : Params) :
  (state p = absent ∧ bd p = None)
  ∨ (state p = present ∧ (bd p = None ∨ vrf p = None)) →
  ∃ msg, ∀ E check_mode, run E p check_mode = Failed msg [].
Proof.
  intros H. eexists. intros E c. apply run_invalid.
  unfold missing_params.
  destruct H as [[-> ->]|[-> [->| ->]]]; [done|done|]. by destruct (bd p).
Qed.

Lemma required_arguments_checked_first_witness :
  ∃ msg, ∀ E check_mode, run E absent_unnamed check_mode = Failed msg [].
Proof.
  apply (required_arguments_checked_first absent_unnamed).
  left. split; reflexivity.
Defined.

(** ** What a query and a removal depend on *)

(** A query reads only [schema], [template] and [bd]: two queries that
    agree on them against the same schema give the same outcome, whatever
    the other parameters, the check mode, the references, the subnets and
    the transport are. *)
Theorem query_depends_on_names_only (E E' : Env) (p p' : Params) (c c' : bool) :
  state p = query → state p' = query →
  schema p' = schema p → template p' = template p → bd p' = bd p →
  get_obj E' (schema p) = get_obj E (schema p) →
  run E' p' c' = run E p c.
Proof.
  intros Hq Hq' Hsc Ht Hb Hg.
  assert (Hv : missing_params p = []) by (unfold missing_params; by rewrite Hq).
  assert (Hv' : missing_params p' = []) by (unfold missing_params; by rewrite Hq').
  destruct (get_obj E (schema p)) as [[s|]|msg] eqn:Hs.
  - assert (Hs' : get_obj E' (schema p') = Ok (Some s)) by (by rewrite Hsc).
    destruct (first_named t_name (template p) (s_templates s)) as [t|] eqn:Hft.
    + rewrite (run_query E p c s t) by done.
      rewrite (run_query E' p' c' s t) by (done || by rewrite Ht).
      by rewrite Hb.
    + apply first_named_None in Hft.
      rewrite (template_not_found_aux E p c Hv s Hs Hft).
      rewrite (template_not_found_aux E' p' c' Hv' s Hs') by (by rewrite Ht).
      by rewrite Ht.
  - rewrite (schema_not_found_aux E p c) by done.
    rewrite (schema_not_found_aux E' p' c') by (done || by rewrite Hsc).
    by rewrite Hsc.
  - rewrite (run_fetch_failed E p c msg) by done.
    by rewrite (run_fetch_failed E' p' c' msg) by (done || by rewrite Hsc).
Qed.

Lemma query_depends_on_names_only_witness :
  run (ctl_env_down ctl_bd1) (params (Some "BD1") (Some vrf2) query) true =
  run (ctl_env ctl_bd1) query_bd1 false.
Proof.
  apply (query_depends_on_names_only (ctl_env ctl_bd1) (ctl_env_down ctl_bd1)
           query_bd1 (params (Some "BD1") (Some vrf2) query) false true);
    reflexivity.
Defined.

(** A removal reads only [schema], [template] and [bd], and never resolves
    the reference or the subnets: two [state=absent] invocations that agree
    on the names, against the same schema and transport, give the same
    outcome. *)
Theorem absent_depends_on_names_only (E E' : Env) (p p' : Params) (c : bool) :
  state p = absent → state p' = absent →
  schema p' = schema p → template p' = template p → bd p' = bd p →
  get_obj E' (schema p) = get_obj E (schema p) →
  (∀ r, submit E' r = submit E r) →
  run E' p' c = run E p c.
Proof.
  intros Ha Ha' Hsc Ht Hb Hg Hsub.
  assert (Hm : missing_params p' = missing_params p).
  { unfold missing_params. by rewrite Ha, Ha', Hb. }
  destruct (decide (missing_params p = [])) as [Hv|Hv].
  2:{ rewrite !run_invalid by (done || by rewrite Hm). by rewrite Hm, Ha, Ha'. }
  assert (Hv' : missing_params p' = []) by (by rewrite Hm).
  destruct (get_obj E (schema p)) as [[s|]|msg] eqn:Hs.
  - assert (Hs' : get_obj E' (schema p') = Ok (Some s)) by (by rewrite Hsc).
    destruct (first_named t_name (template p) (s_templates s)) as [t|] eqn:Hft.
    + rewrite (run_absent E p c s t) by done.
      rewrite (run_absent E' p' c s t) by (done || by rewrite Ht).
      unfold lookup_bd, remove_request, submit_and_report. rewrite Hb, Ht.
      destruct (bd p) as [b|]; [|done].
      destruct (first_named bd_name b (t_bds t)); [|done].
      by rewrite Hsub.
    + apply first_named_None in Hft.
      rewrite (template_not_found_aux E p c Hv s Hs Hft).
      rewrite (template_not_found_aux E' p' c Hv' s Hs') by (by rewrite Ht).
      by rewrite Ht.
  - rewrite (schema_not_found_aux E p c) by done.
    rewrite (schema_not_found_aux E' p' c) by (done || by rewrite Hsc).
    by rewrite Hsc.
  - rewrite (run_fetch_failed E p c msg) by done.
    by rewrite (run_fetch_failed E' p' c msg) by (done || by rewrite Hsc).
Qed.

Lemma absent_depends_on_names_only_witness :
  run (ctl_env ctl_bd1) (params (Some "BD1") (Some vrf2) absent) false =
  run (ctl_env ctl_bd1) absent_bd1 false.
Proof.
  apply (absent_depends_on_names_only (ctl_env ctl_bd1) (ctl_env ctl_bd1)
           absent_bd1 (params (Some "BD1") (Some vrf2) absent) false);
    reflexivity.
Defined.

(** ** Names *)

(** When the schema holds the template name more than once, the template
    at the lowest index is the one worked on ([templates.index], line 212):
    a query for all BDs lists the BDs of that one. *)
Theorem first_of_duplicate_templates (E : Env) (p : Params) (check_mode : bool)
    (s : Schema) (l1 l2 : list Template) (t : Template) (m : MSO) :
  s_templates s = l1 ++ t :: l2 →
  template p ∉ t_name <$> l1 →
  t_name t = template p →
  get_template p s m = Next t m
  ∧ (state p = query → bd p = None →
     get_obj E (schema p) = Ok (Some s) →
     run E p check_mode =
     Exited (mkResult false (VDict ∅) (VList ((λ b, VDict (bd_obj b)) <$> t_bds t))) []).
Proof.
  intros Hl Hl1 Hn.
  assert (Hft : first_named t_name (template p) (s_templates s) = Some t).
  { rewrite Hl. by apply first_named_app. }
  split; [by apply get_template_found|].
  intros Hq Hb Hs.
  assert (Hv : missing_params p = []) by (unfold missing_params; by rewrite Hq).
  rewrite (run_query E p check_mode s t) by done. by rewrite Hb.
Qed.

Lemma first_of_duplicate_templates_witness :
  s_templates schema_two = [] ++ tmpl_bd1 :: [tmpl_empty]
  ∧ t_name tmpl_empty = t_name tmpl_bd1
  ∧ run (ctl_env ctl_two) query_all false =
    Exited (mkResult false (VDict ∅) (VList [VDict (bd_obj bd1)])) [].
Proof.
  split; [reflexivity|]. split; [reflexivity|].
  apply (proj2 (first_of_duplicate_templates (ctl_env ctl_two) query_all false
                  schema_two [] [tmpl_empty] tmpl_bd1 mso_init
                  eq_refl (not_elem_of_nil _) eq_refl)); reflexivity.
Defined.

(** A query that names a BD and exits returns an object whose [name] is the
    requested name, and has submitted nothing. *)
Theorem query_returns_requested_name (E : Env) (p : Params) (check_mode : bool)
    (b : string) (r : Result) (reqs : list Request) :
  state p = query →
  bd p = Some b →
  run E p check_mode = Exited r reqs →
  reqs = [] ∧ ∃ d, current r = VDict d ∧ d !! "name" = Some (VStr b).
Proof.
  intros Hq Hb.
  destruct (run_not_located E p) as [(s & t & Hv & Hs & Ht)|[msg H]];
    [|by rewrite H].
  rewrite (run_query E p check_mode s t) by done. rewrite Hb.
  destruct (first_named bd_name b (t_bds t)) as [o|] eqn:Ho; [|done].
  intros [= <- <-]. split; [done|]. exists (bd_obj o). split; [done|].
  unfold bd_obj. rewrite lookup_insert_eq.
  by rewrite (first_named_Some_name _ _ _ _ Ho).
Qed.

Lemma query_returns_requested_name_witness :
  run (ctl_env ctl_dup) query_bd1 false =
  Exited (mkResult false (VDict ∅) (VDict (bd_obj bd1))) []
  ∧ ∃ d, VDict (bd_obj bd1) = VDict d ∧ d !! "name" = Some (VStr "BD1").
Proof.
  assert (H : run (ctl_env ctl_dup) query_bd1 false =
              Exited (mkResult false (VDict ∅) (VDict (bd_obj bd1))) [])
    by (vm_compute; reflexivity).
  split; [exact H|].
  exact (proj2 (query_returns_requested_name (ctl_env ctl_dup) query_bd1 false "BD1"
                  _ _ eq_refl eq_refl H)).
Defined.

(** ** Paths *)

(** The paths of lines 234 and 263 tell the addressed objects apart as long
    as template names hold no [/]: for two such template names, different
    (template, BD) pairs give different [remove] and different [replace]
    operations. *)
Theorem operation_paths_distinct (t1 t2 b1 b2 : string) (v : value) :
  no_slash t1 = true → no_slash t2 = true →
  t1 ≠ t2 ∨ b1 ≠ b2 →
  remove_operation t1 (Some b1) ≠ remove_operation t2 (Some b2)
  ∧ replace_operation t1 (Some b1) v ≠ replace_operation t2 (Some b2) v.
Proof.
  intros H1 H2 Hne.
  assert (Hp : bd_path t1 b1 ≠ bd_path t2 b2).
  { intros H. destruct (bd_path_inj _ _ _ _ H1 H2 H) as [-> ->]. by destruct Hne. }
  split; intros H; apply Hp;
    apply (f_equal (λ l, match l with o :: _ => path o | [] => "" end)) in H;
    exact H.
Qed.

Lemma operation_paths_distinct_witness :
  remove_operation "Template 1" (Some "BD1") ≠ remove_operation "Template 1" (Some "BD2")
  ∧ replace_operation "Template 1" (Some "BD1") VNone ≠
    replace_operation "Template 1" (Some "BD2") VNone.
Proof.
  apply (operation_paths_distinct "Template 1" "Template 1" "BD1" "BD2" VNone);
    [reflexivity|reflexivity|].
  right. discriminate.
Defined.

(** With a [/] in a template name two different objects can share a path. *)
Example operation_paths_collide :
  remove_operation "a/bds/b" (Some "c") = remove_operation "a" (Some "b/bds/c").
Proof. reflexivity. Qed.

(** ** The previous state *)

(** Line 228 sets [mso.previous] after the query block and before any
    change: an exiting [absent] or [present] invocation reports as previous
    state the object found in the template (the empty object when there is
    none), in check mode too; an exiting [absent] invocation leaves the
    empty object as current state; an exiting query never sets a previous
    state. *)
Theorem previous_is_object_found (E : Env) (p : Params) (check_mode : bool)
    (r : Result) (reqs : list Request) :
  run E p check_mode = Exited r reqs →
  (state p = query → res_previous r = VDict ∅)
  ∧ (state p ≠ query →
     ∃ s t, get_obj E (schema p) = Ok (Some s)
            ∧ first_named t_name (template p) (s_templates s) = Some t
            ∧ res_previous r = found_existing p t
            ∧ (state p = absent → current r = VDict ∅)).
Proof.
  destruct (run_not_located E p) as [(s & t & Hv & Hs & Ht)|[msg H]];
    [|by rewrite H].
  intros Hrun. split.
  - intros Hq. rewrite (run_query E p check_mode s t) in Hrun by done.
    destruct (bd p) as [b|]; [|by injection Hrun as <- _].
    destruct (first_named bd_name b (t_bds t)); [by injection Hrun as <- _|done].
  - intros Hnq. exists s, t. repeat split; [done..| |].
    + destruct (state p) eqn:Hst; [| |done].
      * rewrite (run_absent E p check_mode s t) in Hrun by done.
        unfold found_existing, found_dict.
        destruct (lookup_bd p t); [|by injection Hrun as <- _].
        apply submit_and_report_exit in Hrun. by subst.
      * destruct (make_reference E (vrf p) "vrf" (s_id s) (template p))
          as [v|msg] eqn:Hr;
          [|by rewrite (run_present_unresolved E p check_mode s t Hv Hs Ht Hst msg) in Hrun].
        destruct (make_subnets E (subnets p)) as [sn|msg] eqn:Hn;
          [|by rewrite (run_present_bad_subnets E p check_mode s t Hv Hs Ht Hst v msg)
                in Hrun].
        rewrite (run_present E p check_mode s t Hv Hs Ht sn v) in Hrun by done.
        apply submit_and_report_exit in Hrun. by subst.
    + intros Ha. rewrite (run_absent E p check_mode s t) in Hrun by done.
      destruct (lookup_bd p t); [|by injection Hrun as <- _].
      apply submit_and_report_exit in Hrun. by subst.
Qed.

Lemma previous_is_object_found_witness :
  run (ctl_env ctl_bd1) absent_bd1 true =
  Exited (mkResult true (VDict (bd_obj bd1)) (VDict ∅)) []
  ∧ ∃ s t, get_obj (ctl_env ctl_bd1) (schema absent_bd1) = Ok (Some s)
           ∧ first_named t_name (template absent_bd1) (s_templates s) = Some t
           ∧ VDict (bd_obj bd1) = found_existing absent_bd1 t
           ∧ (state absent_bd1 = absent → VDict ∅ = VDict ∅).
Proof.
  assert (H : run (ctl_env ctl_bd1) absent_bd1 true =
              Exited (mkResult true (VDict (bd_obj bd1)) (VDict ∅)) [])
    by (vm_compute; reflexivity).
  split; [exact H|].
  apply (proj2 (previous_is_object_found (ctl_env ctl_bd1) absent_bd1 true _ _ H)).
  discriminate.
Defined.

(** ** Why twice in succession needs its conditions *)

(** In check mode nothing reaches the controller, so the second invocation
    reports what the first did. *)
Example present_twice_in_check_mode :
  run (ctl_env ctl_empty) present_bd1 true =
  Exited (mkResult true (VDict ∅) (VDict (bd_obj bd1))) []
  ∧ apply_requests [] ctl_empty = ctl_empty.
Proof. split; vm_compute; reflexivity. Qed.

(** With a [/] in a template name the path of the [replace] is also the
    path of a BD of another template: the patch lands there, and the second
    invocation finds its own BD as it was. *)
Example present_twice_colliding_paths :
  ∃ res1 req,
    run (ctl_env ctl_slashed) present_slashed false = Exited res1 [req]
    ∧ changed res1 = true
    ∧ ∃ res2,
        run (ctl_env (apply_requests [req] ctl_slashed)) present_slashed false =
        Exited res2 [req]
        ∧ changed res2 = true.
Proof.
  eexists _, _. split; [vm_compute; reflexivity|]. split; [reflexivity|].
  eexists. split; [vm_compute; reflexivity|reflexivity].
Qed.
